(** * The capture session controller of static/js/face-recognition.js

    A shallow embedding of [window.FaceRecognition]: the controller object,
    the page elements it reads and writes, and the browser facilities it
    calls (media streams, interval timers, promises, toasts, the console).

    The page is the face-recognition page: every element the methods look
    up with [document.getElementById] is present, and so are the video
    element, the canvas and its 2d context.  The fields of the face data
    the backend returns are plain text, and the page has no element of
    class [delete-face] of its own, so the delete buttons of the table are
    the ones the row template writes.  Asynchronous calls
    ([getUserMedia], [axios], [faceapi]) are requests in a pending list;
    the browser completes them one at a time, in any order. *)

From stdpp Require Import base option list strings pretty.

Local Open Scope string_scope.
Local Open Scope list_scope.

(** ** Values exchanged with the libraries and the backend *)

Definition StreamId := nat.

(** Handles returned by [setInterval] are integers greater than zero. *)
Definition TimerId := positive.

Record Box := { box_x : Z; box_y : Z; box_width : Z; box_height : Z }.

(** A face-api.js detection: [detection.detection.box] and
    [detection.expressions], an object from expression names to scores
    (scores are only compared with each other). *)
Record Detection := { det_box : Box; det_expressions : list (string * Z) }.

(** An entry of [response.data.faces] of [/api/v1/face/detect]. *)
Record BackendFace := { face_box : Box; face_name : option string }.

Inductive Face :=
| LocalFace (d : Detection)
| RemoteFace (f : BackendFace).

(** [response.data] of [/api/v1/face/recognize]. *)
Record RecognizeResult := {
  res_success : bool;
  res_name : string;
  res_employee_id : string;
  res_action : string;
  res_time : string;
  res_message : option string
}.

(** An entry of [response.data.data] of [/api/v1/face/data]. *)
Record FaceRow := {
  row_id : string;
  row_user_id : string;
  row_name : string;
  row_image_url : string;
  row_created_at : string
}.

Record File := { file_type : string; file_size : N; file_dataURL : string }.

(** A promise that has not settled yet, with what its callbacks captured. *)
Inductive Request :=
| ReqLoadModels
| ReqGetUserMedia
| ReqLocalDetect
| ReqBackendDetect (image : string)
| ReqRegister (user_id image originalText : string)
| ReqRecognize (image originalText : string)
| ReqLoadFaceData
| ReqDeleteFace (faceId : string)
| ReqReadFile (f : File)
| ReqDecodeImage (dataURL : string).

(** How a pending promise settles. *)
Inductive Reply :=
| ModelsLoaded
| ModelsFailed
| CameraGranted (sid : StreamId)
| CameraDenied
| Detections (ds : list Detection)
| DetectorThrew
| HttpFaces (faces : option (list BackendFace))
| HttpRecognize (r : RecognizeResult)
| HttpRows (rows : option (list FaceRow))
| HttpOk
| HttpError (detail : option string)
| Loaded.

(** ** The controller object: the mutable fields of [window.FaceRecognition] *)

Record Controller := {
  stream : option StreamId;
  faceDetectionModel : bool;            (* null, or the loaded detector;
                                           faceRecognitionModel is never read *)
  currentFaces : list Face;
  isDetecting : bool;
  detectionInterval : option TimerId
}.

(** ** The page *)

Inductive ButtonId :=
| start_camera | stop_camera | start_detection | stop_detection
| capture_photo | register_face | recognize_attendance.

Inductive TextId := camera_status | detection_status | model_status | face_count.

(** Content of a button: plain text, or the spinner span followed by text. *)
Inductive Markup :=
| Text (t : string)
| Spinner (t : string).

Definition textContent (m : Markup) : string :=
  match m with Text t => t | Spinner t => t end.

Record Button := { disabled : bool; innerHTML : Markup }.

Record Buttons := {
  btn_start_camera : Button;
  btn_stop_camera : Button;
  btn_start_detection : Button;
  btn_stop_detection : Button;
  btn_capture_photo : Button;
  btn_register_face : Button;
  btn_recognize_attendance : Button
}.

Record Texts := {
  txt_camera_status : string;
  txt_detection_status : string;
  txt_model_status : string;
  txt_face_count : string
}.

(** What has been drawn on the canvas since it was last cleared. *)
Inductive Draw :=
| DrawVideo (frame : string)
| DrawImage (dataURL : string)
| StrokeRect (x y w h : Z)
| FillText (t : string) (x y : Z).

(** [#face-data-table-body]: untouched, the placeholder row, or the rows
    the template of [renderFaceDataTable] writes for the entries (fields
    are put in as they come; for plain text fields that is one row with
    one delete button, [data-id] = [row_id], per entry). *)
Inductive Table :=
| TableStatic
| TableEmpty
| TableRows (rows : list FaceRow).

Record Dom := {
  video_srcObject : option StreamId;
  canvas : list Draw;
  buttons : Buttons;
  texts : Texts;
  face_image_data : string;             (* #face-image-data .value *)
  user_id : string;                     (* #user-id .value *)
  photo_preview : string;               (* #photo-preview .src *)
  recognition_result : option RecognizeResult;
  face_data_table_body : Table
}.

(** ** The browser *)

Record Env := {
  mediaDevices : bool;                  (* navigator.mediaDevices.getUserMedia exists *)
  videoFrame : string;                  (* data URL of what the video shows now *)
  liveStreams : list StreamId;          (* streams whose tracks are not stopped *)
  timers : list TimerId;                (* intervals that are armed *)
  nextTimer : TimerId;
  pending : list Request;
  toasts : list (string * string);      (* window.ATT.showToast(message, type) *)
  console : list string;                (* console.log / console.error *)
  sounds : list string                  (* new Audio(file).play() *)
}.

Record State := { this : Controller; dom : Dom; env : Env }.

(** ** Field updates *)

Definition on_this (f : Controller -> Controller) (s : State) : State :=
  {| this := f (this s); dom := dom s; env := env s |}.
Definition on_dom (f : Dom -> Dom) (s : State) : State :=
  {| this := this s; dom := f (dom s); env := env s |}.
Definition on_env (f : Env -> Env) (s : State) : State :=
  {| this := this s; dom := dom s; env := f (env s) |}.

Definition set_stream (v : option StreamId) : State -> State :=
  on_this (fun c => {| stream := v; faceDetectionModel := faceDetectionModel c;
    currentFaces := currentFaces c; isDetecting := isDetecting c;
    detectionInterval := detectionInterval c |}).
Definition set_faceDetectionModel (v : bool) : State -> State :=
  on_this (fun c => {| stream := stream c; faceDetectionModel := v;
    currentFaces := currentFaces c; isDetecting := isDetecting c;
    detectionInterval := detectionInterval c |}).
Definition set_currentFaces (v : list Face) : State -> State :=
  on_this (fun c => {| stream := stream c; faceDetectionModel := faceDetectionModel c;
    currentFaces := v; isDetecting := isDetecting c;
    detectionInterval := detectionInterval c |}).
Definition set_isDetecting (v : bool) : State -> State :=
  on_this (fun c => {| stream := stream c; faceDetectionModel := faceDetectionModel c;
    currentFaces := currentFaces c; isDetecting := v;
    detectionInterval := detectionInterval c |}).
Definition set_detectionInterval (v : option TimerId) : State -> State :=
  on_this (fun c => {| stream := stream c; faceDetectionModel := faceDetectionModel c;
    currentFaces := currentFaces c; isDetecting := isDetecting c;
    detectionInterval := v |}).

Definition set_srcObject (v : option StreamId) : State -> State :=
  on_dom (fun d => {| video_srcObject := v; canvas := canvas d; buttons := buttons d;
    texts := texts d; face_image_data := face_image_data d; user_id := user_id d;
    photo_preview := photo_preview d; recognition_result := recognition_result d;
    face_data_table_body := face_data_table_body d |}).
Definition set_canvas (v : list Draw) : State -> State :=
  on_dom (fun d => {| video_srcObject := video_srcObject d; canvas := v; buttons := buttons d;
    texts := texts d; face_image_data := face_image_data d; user_id := user_id d;
    photo_preview := photo_preview d; recognition_result := recognition_result d;
    face_data_table_body := face_data_table_body d |}).
Definition set_buttons (v : Buttons) : State -> State :=
  on_dom (fun d => {| video_srcObject := video_srcObject d; canvas := canvas d; buttons := v;
    texts := texts d; face_image_data := face_image_data d; user_id := user_id d;
    photo_preview := photo_preview d; recognition_result := recognition_result d;
    face_data_table_body := face_data_table_body d |}).
Definition set_texts (v : Texts) : State -> State :=
  on_dom (fun d => {| video_srcObject := video_srcObject d; canvas := canvas d;
    buttons := buttons d; texts := v; face_image_data := face_image_data d;
    user_id := user_id d; photo_preview := photo_preview d;
    recognition_result := recognition_result d;
    face_data_table_body := face_data_table_body d |}).
Definition set_face_image_data (v : string) : State -> State :=
  on_dom (fun d => {| video_srcObject := video_srcObject d; canvas := canvas d;
    buttons := buttons d; texts := texts d; face_image_data := v; user_id := user_id d;
    photo_preview := photo_preview d; recognition_result := recognition_result d;
    face_data_table_body := face_data_table_body d |}).
Definition set_user_id (v : string) : State -> State :=
  on_dom (fun d => {| video_srcObject := video_srcObject d; canvas := canvas d;
    buttons := buttons d; texts := texts d; face_image_data := face_image_data d;
    user_id := v; photo_preview := photo_preview d;
    recognition_result := recognition_result d;
    face_data_table_body := face_data_table_body d |}).
Definition set_photo_preview (v : string) : State -> State :=
  on_dom (fun d => {| video_srcObject := video_srcObject d; canvas := canvas d;
    buttons := buttons d; texts := texts d; face_image_data := face_image_data d;
    user_id := user_id d; photo_preview := v; recognition_result := recognition_result d;
    face_data_table_body := face_data_table_body d |}).
Definition set_recognition_result (v : option RecognizeResult) : State -> State :=
  on_dom (fun d => {| video_srcObject := video_srcObject d; canvas := canvas d;
    buttons := buttons d; texts := texts d; face_image_data := face_image_data d;
    user_id := user_id d; photo_preview := photo_preview d; recognition_result := v;
    face_data_table_body := face_data_table_body d |}).
Definition set_face_data_table_body (v : Table) : State -> State :=
  on_dom (fun d => {| video_srcObject := video_srcObject d; canvas := canvas d;
    buttons := buttons d; texts := texts d; face_image_data := face_image_data d;
    user_id := user_id d; photo_preview := photo_preview d;
    recognition_result := recognition_result d; face_data_table_body := v |}).

Definition button (b : ButtonId) (s : State) : Button :=
  let bs := buttons (dom s) in
  match b with
  | start_camera => btn_start_camera bs
  | stop_camera => btn_stop_camera bs
  | start_detection => btn_start_detection bs
  | stop_detection => btn_stop_detection bs
  | capture_photo => btn_capture_photo bs
  | register_face => btn_register_face bs
  | recognize_attendance => btn_recognize_attendance bs
  end.

Definition set_button (b : ButtonId) (x : Button) (s : State) : State :=
  let bs := buttons (dom s) in
  let mk b1 b2 b3 b4 b5 b6 b7 :=
    {| btn_start_camera := b1; btn_stop_camera := b2; btn_start_detection := b3;
       btn_stop_detection := b4; btn_capture_photo := b5; btn_register_face := b6;
       btn_recognize_attendance := b7 |} in
  set_buttons
    match b with
    | start_camera => mk x (btn_stop_camera bs) (btn_start_detection bs) (btn_stop_detection bs)
        (btn_capture_photo bs) (btn_register_face bs) (btn_recognize_attendance bs)
    | stop_camera => mk (btn_start_camera bs) x (btn_start_detection bs) (btn_stop_detection bs)
        (btn_capture_photo bs) (btn_register_face bs) (btn_recognize_attendance bs)
    | start_detection => mk (btn_start_camera bs) (btn_stop_camera bs) x (btn_stop_detection bs)
        (btn_capture_photo bs) (btn_register_face bs) (btn_recognize_attendance bs)
    | stop_detection => mk (btn_start_camera bs) (btn_stop_camera bs) (btn_start_detection bs) x
        (btn_capture_photo bs) (btn_register_face bs) (btn_recognize_attendance bs)
    | capture_photo => mk (btn_start_camera bs) (btn_stop_camera bs) (btn_start_detection bs)
        (btn_stop_detection bs) x (btn_register_face bs) (btn_recognize_attendance bs)
    | register_face => mk (btn_start_camera bs) (btn_stop_camera bs) (btn_start_detection bs)
        (btn_stop_detection bs) (btn_capture_photo bs) x (btn_recognize_attendance bs)
    | recognize_attendance => mk (btn_start_camera bs) (btn_stop_camera bs)
        (btn_start_detection bs) (btn_stop_detection bs) (btn_capture_photo bs)
        (btn_register_face bs) x
    end s.

(** [document.getElementById(b).disabled = v] *)
Definition set_disabled (b : ButtonId) (v : bool) (s : State) : State :=
  set_button b {| disabled := v; innerHTML := innerHTML (button b s) |} s.

(** [btn.innerHTML = m], and [btn.textContent = t] as [set_innerHTML b (Text t)] *)
Definition set_innerHTML (b : ButtonId) (m : Markup) (s : State) : State :=
  set_button b {| disabled := disabled (button b s); innerHTML := m |} s.

(** [document.getElementById(t).textContent = v] *)
Definition set_text (t : TextId) (v : string) (s : State) : State :=
  let ts := texts (dom s) in
  set_texts
    match t with
    | camera_status => {| txt_camera_status := v; txt_detection_status := txt_detection_status ts;
        txt_model_status := txt_model_status ts; txt_face_count := txt_face_count ts |}
    | detection_status => {| txt_camera_status := txt_camera_status ts; txt_detection_status := v;
        txt_model_status := txt_model_status ts; txt_face_count := txt_face_count ts |}
    | model_status => {| txt_camera_status := txt_camera_status ts;
        txt_detection_status := txt_detection_status ts;
        txt_model_status := v; txt_face_count := txt_face_count ts |}
    | face_count => {| txt_camera_status := txt_camera_status ts;
        txt_detection_status := txt_detection_status ts;
        txt_model_status := txt_model_status ts; txt_face_count := v |}
    end s.

Definition set_liveStreams (v : list StreamId) : State -> State :=
  on_env (fun e => {| mediaDevices := mediaDevices e; videoFrame := videoFrame e;
    liveStreams := v; timers := timers e; nextTimer := nextTimer e; pending := pending e;
    toasts := toasts e; console := console e; sounds := sounds e |}).
Definition set_videoFrame (v : string) : State -> State :=
  on_env (fun e => {| mediaDevices := mediaDevices e; videoFrame := v;
    liveStreams := liveStreams e; timers := timers e; nextTimer := nextTimer e;
    pending := pending e; toasts := toasts e; console := console e; sounds := sounds e |}).
Definition set_timers (v : list TimerId) (n : TimerId) : State -> State :=
  on_env (fun e => {| mediaDevices := mediaDevices e; videoFrame := videoFrame e;
    liveStreams := liveStreams e; timers := v; nextTimer := n; pending := pending e;
    toasts := toasts e; console := console e; sounds := sounds e |}).
Definition set_pending (v : list Request) : State -> State :=
  on_env (fun e => {| mediaDevices := mediaDevices e; videoFrame := videoFrame e;
    liveStreams := liveStreams e; timers := timers e; nextTimer := nextTimer e; pending := v;
    toasts := toasts e; console := console e; sounds := sounds e |}).
Definition set_toasts (v : list (string * string)) : State -> State :=
  on_env (fun e => {| mediaDevices := mediaDevices e; videoFrame := videoFrame e;
    liveStreams := liveStreams e; timers := timers e; nextTimer := nextTimer e;
    pending := pending e; toasts := v; console := console e; sounds := sounds e |}).
Definition set_console (v : list string) : State -> State :=
  on_env (fun e => {| mediaDevices := mediaDevices e; videoFrame := videoFrame e;
    liveStreams := liveStreams e; timers := timers e; nextTimer := nextTimer e;
    pending := pending e; toasts := toasts e; console := v; sounds := sounds e |}).
Definition set_sounds (v : list string) : State -> State :=
  on_env (fun e => {| mediaDevices := mediaDevices e; videoFrame := videoFrame e;
    liveStreams := liveStreams e; timers := timers e; nextTimer := nextTimer e;
    pending := pending e; toasts := toasts e; console := console e; sounds := v |}).

(** Statements of a method body, in source order: [s |> f |> g]. *)
Notation "s |> f" := (f s) (at level 45, left associativity, only parsing).

(** ** Browser facilities *)

(** [window.ATT.showToast(message, type)] *)
Definition showToast (message type : string) (s : State) : State :=
  set_toasts (toasts (env s) ++ [(message, type)]) s.

(** [console.log(m)] and [console.error(m, error)] *)
Definition console_write (m : string) (s : State) : State :=
  set_console (console (env s) ++ [m]) s.

(** A call that returns a promise: the promise joins the pending ones. *)
Definition issue (r : Request) (s : State) : State :=
  set_pending (pending (env s) ++ [r]) s.

Definition setInterval (s : State) : TimerId * State :=
  let t := nextTimer (env s) in
  (t, set_timers (timers (env s) ++ [t]) (Pos.succ t) s).

Definition clearInterval (t : TimerId) (s : State) : State :=
  set_timers (filter (fun u => u <> t) (timers (env s))) (nextTimer (env s)) s.

(** [stream.getTracks().forEach(track => track.stop())] *)
Definition stopTracks (st : StreamId) (s : State) : State :=
  set_liveStreams (filter (fun u => u <> st) (liveStreams (env s))) s.

(** [context.clearRect(0, 0, canvas.width, canvas.height)] *)
Definition clearRect : State -> State := set_canvas [].

(** [canvas.width = video.videoWidth; canvas.height = video.videoHeight]:
    assigning a dimension resets the bitmap. *)
Definition resizeCanvas : State -> State := set_canvas [].

Definition draw (d : Draw) (s : State) : State :=
  set_canvas (canvas (dom s) ++ [d]) s.

(** [context.drawImage(video, 0, 0, canvas.width, canvas.height)] *)
Definition drawVideo (s : State) : State := draw (DrawVideo (videoFrame (env s))) s.

(** [canvas.toDataURL('image/jpeg')], called right after [drawVideo]: the
    encoding of the frame the video shows. *)
Definition toDataURL (s : State) : string := videoFrame (env s).

Definition strokeRect (b : Box) : State -> State :=
  draw (StrokeRect (box_x b) (box_y b) (box_width b) (box_height b)).

(** A string in a condition: the empty string is falsy. *)
Definition truthy (v : string) : bool :=
  match v with EmptyString => false | String _ _ => true end.

(** [v || d] where [v] may be undefined *)
Definition or_else (v : option string) (d : string) : string :=
  match v with
  | Some x => if truthy x then x else d
  | None => d
  end.

(** ** Methods of [window.FaceRecognition] *)

Definition loadModels (s : State) : State :=
  s |> set_text model_status "正在加载模型..." |> issue ReqLoadModels.

Definition loadModels_then (s : State) : State :=
  s |> set_faceDetectionModel true
    |> set_text model_status "模型加载完成"
    |> console_write "人脸识别模型加载完成".

Definition initBackendAPI (s : State) : State :=
  s |> console_write "使用后端API进行人脸识别" |> set_text model_status "使用后端API".

Definition loadModels_catch (s : State) : State :=
  s |> console_write "加载模型失败:" |> set_text model_status "模型加载失败" |> initBackendAPI.

(** [init]: the element lookups, [bindEvents] (see below) and [loadModels]. *)
Definition init : State -> State := loadModels.

Definition startCamera (s : State) : State :=
  if mediaDevices (env s) then issue ReqGetUserMedia s
  else showToast "您的浏览器不支持摄像头功能" "warning" s.

Definition startCamera_then (sid : StreamId) (s : State) : State :=
  s |> set_stream (Some sid)
    |> set_srcObject (Some sid)
    |> set_disabled start_camera true
    |> set_disabled stop_camera false
    |> set_text camera_status "摄像头已启动".

Definition startCamera_catch (s : State) : State :=
  s |> console_write "无法访问摄像头:"
    |> showToast "无法访问摄像头，请检查权限设置" "danger".

Definition stopDetection (s : State) : State :=
  s |> set_isDetecting false
    |> (fun s => match detectionInterval (this s) with
                 | Some t => s |> clearInterval t |> set_detectionInterval None
                 | None => s
                 end)
    |> clearRect
    |> set_disabled start_detection false
    |> set_disabled stop_detection true
    |> set_text detection_status "检测已停止".

Definition stopCamera (s : State) : State :=
  match stream (this s) with
  | Some st =>
      s |> stopTracks st
        |> set_srcObject None
        |> set_stream None
        |> stopDetection
        |> set_disabled start_camera false
        |> set_disabled stop_camera true
        |> set_text camera_status "摄像头已停止"
  | None => s
  end.

Definition startDetection (s : State) : State :=
  match stream (this s) with
  | None => showToast "请先启动摄像头" "warning" s
  | Some _ =>
      s |> set_isDetecting true
        |> set_disabled start_detection true
        |> set_disabled stop_detection false
        |> set_text detection_status "检测中..."
        |> resizeCanvas
        |> (fun s => let '(t, s') := setInterval s in set_detectionInterval (Some t) s')
  end.

Definition detectFacesWithFaceAPI : State -> State := issue ReqLocalDetect.

(** [Object.keys(expressions).reduce((a, b) => expressions[a] > expressions[b] ? a : b)]:
    [None] is the TypeError of [reduce] on an empty array. *)
Definition maxExpression (ex : list (string * Z)) : option string :=
  match ex with
  | [] => None
  | e :: es => Some (fst (fold_left (fun a b => if (snd a >? snd b)%Z then a else b) es e))
  end.

(** Running a block that may throw: the state when it ended, and how. *)
Inductive Outcome :=
| Normal (s : State)
| Thrown (s : State).

(** The [detections.forEach] of [detectFacesWithFaceAPI] *)
Fixpoint drawDetections (ds : list Detection) (s : State) : Outcome :=
  match ds with
  | [] => Normal s
  | d :: ds' =>
      let s1 := strokeRect (det_box d) s in
      match maxExpression (det_expressions d) with
      | None => Thrown s1
      | Some m =>
          drawDetections ds'
            (draw (FillText m (box_x (det_box d)) (box_y (det_box d) - 5)) s1)
      end
  end.

(** [detectFacesWithFaceAPI] from its [await] on: [r] is [None] when the
    awaited detection throws. *)
Definition detectFacesWithFaceAPI_resume (r : option (list Detection)) (s : State) : State :=
  match r with
  | None => console_write "人脸检测失败:" s
  | Some ds =>
      match drawDetections ds (clearRect s) with
      | Thrown s' => console_write "人脸检测失败:" s'
      | Normal s' =>
          s' |> set_currentFaces (map LocalFace ds)
             |> set_text face_count (pretty (length ds))
      end
  end.

Definition detectFacesWithBackend (s : State) : State :=
  s |> drawVideo |> (fun s => issue (ReqBackendDetect (toDataURL s)) s).

Definition drawFace (s : State) (f : BackendFace) : State :=
  let s1 := strokeRect (face_box f) s in
  match face_name f with
  | Some n =>
      if truthy n
      then draw (FillText n (box_x (face_box f)) (box_y (face_box f) - 5)) s1
      else s1
  | None => s1
  end.

Definition detectFacesWithBackend_then (r : option (list BackendFace)) (s : State) : State :=
  let faces := default [] r in
  s |> clearRect
    |> drawVideo
    |> (fun s => fold_left drawFace faces s)
    |> set_currentFaces (map RemoteFace faces)
    |> set_text face_count (pretty (length faces)).

Definition detectFacesWithBackend_catch : State -> State :=
  console_write "人脸检测失败:".

Definition detectFaces (s : State) : State :=
  if faceDetectionModel (this s) then detectFacesWithFaceAPI s
  else detectFacesWithBackend s.

Definition capturePhoto (s : State) : State :=
  match stream (this s) with
  | None => showToast "请先启动摄像头" "warning" s
  | Some _ =>
      s |> resizeCanvas
        |> drawVideo
        |> (fun s => let imageData := toDataURL s in
                     s |> set_photo_preview imageData |> set_face_image_data imageData)
        |> showToast "拍照成功" "success"
  end.

Definition loadFaceData : State -> State := issue ReqLoadFaceData.

Definition registerFace (s : State) : State :=
  let imageData := face_image_data (dom s) in
  let userId := user_id (dom s) in
  if negb (truthy imageData) then showToast "请先拍照或上传人脸照片" "warning" s
  else if negb (truthy userId) then showToast "请选择用户" "warning" s
  else
    let originalText := textContent (innerHTML (button register_face s)) in
    s |> set_disabled register_face true
      |> set_innerHTML register_face (Spinner "注册中...")
      |> issue (ReqRegister userId imageData originalText).

Definition registerFace_then (s : State) : State :=
  s |> showToast "人脸注册成功" "success"
    |> set_face_image_data ""
    |> set_photo_preview ""
    |> loadFaceData.

Definition registerFace_catch (detail : option string) : State -> State :=
  showToast (or_else detail "人脸注册失败") "danger".

Definition registerFace_finally (originalText : string) (s : State) : State :=
  s |> set_disabled register_face false
    |> set_innerHTML register_face (Text originalText).

(** [new Audio(soundFile).play()]; a refused playback is only logged. *)
Definition playSound (type : string) (s : State) : State :=
  if String.eqb type "success" then set_sounds (sounds (env s) ++ ["/static/sounds/success.mp3"]) s
  else if String.eqb type "error" then set_sounds (sounds (env s) ++ ["/static/sounds/error.mp3"]) s
  else s.

Definition recognizeAttendance (s : State) : State :=
  match stream (this s) with
  | None => showToast "请先启动摄像头" "warning" s
  | Some _ =>
      if Nat.eqb (length (currentFaces (this s))) 0 then showToast "未检测到人脸" "warning" s
      else
        let originalText := textContent (innerHTML (button recognize_attendance s)) in
        s |> resizeCanvas
          |> drawVideo
          |> (fun s => let imageData := toDataURL s in
               s |> set_disabled recognize_attendance true
                 |> set_innerHTML recognize_attendance (Spinner "识别中...")
                 |> issue (ReqRecognize imageData originalText))
  end.

Definition recognizeAttendance_then (result : RecognizeResult) (s : State) : State :=
  if res_success result then
    s |> showToast ("识别成功，" +:+ res_action result +:+ "时间：" +:+ res_time result) "success"
      |> set_recognition_result (Some result)
      |> playSound "success"
  else
    s |> showToast (or_else (res_message result) "识别失败") "warning"
      |> playSound "error".

Definition recognizeAttendance_catch (detail : option string) (s : State) : State :=
  s |> showToast (or_else detail "人脸识别失败") "danger" |> playSound "error".

Definition recognizeAttendance_finally (originalText : string) (s : State) : State :=
  s |> set_disabled recognize_attendance false
    |> set_innerHTML recognize_attendance (Text originalText).

(** [file.type.match('image.*')]: the type contains "image". *)
Fixpoint contains (p s : string) : bool :=
  String.prefix p s ||
  match s with
  | EmptyString => false
  | String _ s' => contains p s'
  end.

Definition handleImageUpload (file : option File) (s : State) : State :=
  match file with
  | None => s
  | Some f =>
      if negb (contains "image" (file_type f)) then showToast "请选择图片文件" "warning" s
      else if (5 * 1024 * 1024 <? file_size f)%N then showToast "图片大小不能超过5MB" "warning" s
      else issue (ReqReadFile f) s
  end.

Definition handleImageUpload_onload (f : File) (s : State) : State :=
  let imageData := file_dataURL f in
  s |> set_photo_preview imageData
    |> set_face_image_data imageData
    |> issue (ReqDecodeImage imageData).

Definition handleImageUpload_img_onload (imageData : string) (s : State) : State :=
  s |> resizeCanvas |> draw (DrawImage imageData).

Definition renderFaceDataTable (faceData : list FaceRow) : State -> State :=
  match faceData with
  | [] => set_face_data_table_body TableEmpty
  | _ :: _ => set_face_data_table_body (TableRows faceData)
  end.

Definition loadFaceData_then (rows : option (list FaceRow)) : State -> State :=
  renderFaceDataTable (default [] rows).

Definition loadFaceData_catch : State -> State :=
  console_write "加载人脸数据失败:".

(** [confirmed] is what the user answers to [confirm(...)]. *)
Definition deleteFaceData (faceId : string) (confirmed : bool) (s : State) : State :=
  if negb confirmed then s else issue (ReqDeleteFace faceId) s.

Definition deleteFaceData_then (s : State) : State :=
  s |> showToast "人脸数据删除成功" "success" |> loadFaceData.

Definition deleteFaceData_catch (detail : option string) : State -> State :=
  showToast (or_else detail "删除失败") "danger".

(** ** Identifier resolution in the click handlers *)

Module Js.

Inductive Value :=
| VWindow                      (* the global object *)
| VController                  (* the object assigned to window.FaceRecognition *)
| VMethod (name : string)      (* a function-valued property of the controller *)
| VOther.                      (* any other value *)

(** The bindings one function (or the global object) contributes. *)
Definition Scope := list (string * Value).

Fixpoint binding (x : string) (sc : Scope) : option Value :=
  match sc with
  | [] => None
  | (y, v) :: sc' => if String.eqb x y then Some v else binding x sc'
  end.

(** Innermost scope first; [None] is a ReferenceError. *)
Fixpoint resolve (x : string) (chain : list Scope) : option Value :=
  match chain with
  | [] => None
  | sc :: chain' =>
      match binding x sc with
      | Some v => Some v
      | None => resolve x chain'
      end
  end.

(** The global object in a page: what the browser provides and this file
    uses, and what the scripts of the repository assign to [window]. *)
Definition window_properties : Scope :=
  [ ("window", VWindow); ("self", VWindow);
    ("document", VOther); ("navigator", VOther); ("console", VOther);
    ("confirm", VOther); ("setInterval", VOther); ("clearInterval", VOther);
    ("Promise", VOther); ("FileReader", VOther); ("Image", VOther); ("Audio", VOther);
    ("axios", VOther); ("faceapi", VOther);
    ("App", VOther); ("AttendanceSystem", VOther); ("ATT", VOther);
    ("Utils", VOther); ("UTILS", VOther); ("Charts", VOther); ("CHARTS", VOther);
    ("FaceRecognition", VController); ("FR", VController) ].

(** The function-valued keys of the object literal. *)
Definition controller_methods : list string :=
  [ "init"; "bindEvents"; "loadModels"; "initBackendAPI"; "startCamera"; "stopCamera";
    "startDetection"; "stopDetection"; "detectFaces"; "detectFacesWithFaceAPI";
    "detectFacesWithBackend"; "capturePhoto"; "registerFace"; "recognizeAttendance";
    "handleImageUpload"; "loadFaceData"; "renderFaceDataTable"; "deleteFaceData";
    "playSound" ].

(** [v.p]; [None] is undefined. *)
Definition get (v : Value) (p : string) : option Value :=
  match v with
  | VWindow => binding p window_properties
  | VController =>
      if existsb (String.eqb p) controller_methods then Some (VMethod p) else None
  | VMethod _ => None
  | VOther => None
  end.

(** Scopes around the body of a click handler registered in [bindEvents]:
    the handler, [bindEvents] (which starts with [const self = this]),
    the global object. *)
Definition bindEvents_handler_chain : list Scope :=
  [ [];
    [ ("self", VController); ("startCameraBtn", VOther); ("stopCameraBtn", VOther);
      ("startDetectionBtn", VOther); ("stopDetectionBtn", VOther); ("captureBtn", VOther);
      ("registerFaceBtn", VOther); ("recognizeAttendanceBtn", VOther);
      ("fileInput", VOther) ];
    window_properties ].

(** Scopes declared inside [renderFaceDataTable] around the body of the
    click handler of a delete button: the handler ([const faceId]), the
    arrow function [btn => ...], and [renderFaceDataTable] itself. *)
Definition renderFaceDataTable_scopes : list Scope :=
  [ [ ("faceId", VOther) ];
    [ ("btn", VOther) ];
    [ ("faceData", VOther); ("tableBody", VOther) ] ].

Definition renderFaceDataTable_handler_chain : list Scope :=
  renderFaceDataTable_scopes ++ [ window_properties ].

End Js.

(** How a handler ends. *)
Inductive Completion :=
| Returned (s : State)
| ReferenceError (s : State)
| TypeError (s : State).

Definition final (c : Completion) : State :=
  match c with Returned s | ReferenceError s | TypeError s => s end.

(** The click handler [renderFaceDataTable] attaches to every delete button:
    [const faceId = this.getAttribute('data-id'); self.deleteFaceData(faceId);] *)
Definition delete_face_click (faceId : string) (confirmed : bool) (s : State) : Completion :=
  match Js.resolve "self" Js.renderFaceDataTable_handler_chain with
  | None => ReferenceError s
  | Some self =>
      match Js.get self "deleteFaceData" with
      | Some (Js.VMethod "deleteFaceData") => Returned (deleteFaceData faceId confirmed s)
      | _ => TypeError s
      end
  end.

(** The delete buttons of the table, by their [data-id]. *)
Definition delete_buttons (s : State) : list string :=
  match face_data_table_body (dom s) with
  | TableRows rows => map row_id rows
  | _ => []
  end.

(** ** The event loop *)

(** The click handlers registered by [bindEvents]. *)
Definition bindEvents (b : ButtonId) : State -> State :=
  match b with
  | start_camera => startCamera
  | stop_camera => stopCamera
  | start_detection => startDetection
  | stop_detection => stopDetection
  | capture_photo => capturePhoto
  | register_face => registerFace
  | recognize_attendance => recognizeAttendance
  end.

(** A promise settles: its request leaves the pending ones and its
    callbacks run ([then] or [catch], then [finally]). *)
Definition settle (i : nat) (r : Reply) (s : State) : State :=
  match pending (env s) !! i with
  | None => s
  | Some q =>
      let s' := set_pending (delete i (pending (env s))) s in
      match q, r with
      | ReqLoadModels, ModelsLoaded => loadModels_then s'
      | ReqLoadModels, ModelsFailed => loadModels_catch s'
      | ReqGetUserMedia, CameraGranted sid =>
          s' |> set_liveStreams (liveStreams (env s') ++ [sid]) |> startCamera_then sid
      | ReqGetUserMedia, CameraDenied => startCamera_catch s'
      | ReqLocalDetect, Detections ds => detectFacesWithFaceAPI_resume (Some ds) s'
      | ReqLocalDetect, DetectorThrew => detectFacesWithFaceAPI_resume None s'
      | ReqBackendDetect _, HttpFaces faces => detectFacesWithBackend_then faces s'
      | ReqBackendDetect _, HttpError _ => detectFacesWithBackend_catch s'
      | ReqRegister _ _ originalText, HttpOk =>
          s' |> registerFace_then |> registerFace_finally originalText
      | ReqRegister _ _ originalText, HttpError detail =>
          s' |> registerFace_catch detail |> registerFace_finally originalText
      | ReqRecognize _ originalText, HttpRecognize result =>
          s' |> recognizeAttendance_then result |> recognizeAttendance_finally originalText
      | ReqRecognize _ originalText, HttpError detail =>
          s' |> recognizeAttendance_catch detail |> recognizeAttendance_finally originalText
      | ReqLoadFaceData, HttpRows rows => loadFaceData_then rows s'
      | ReqLoadFaceData, HttpError _ => loadFaceData_catch s'
      | ReqDeleteFace _, HttpOk => deleteFaceData_then s'
      | ReqDeleteFace _, HttpError detail => deleteFaceData_catch detail s'
      | ReqReadFile f, Loaded => handleImageUpload_onload f s'
      | ReqDecodeImage imageData, Loaded => handleImageUpload_img_onload imageData s'
      | _, _ => s                (* not a way this promise settles *)
      end
  end.

(** An armed interval fires; a cleared one never does. *)
Definition tick (t : TimerId) (s : State) : State :=
  if bool_decide (t ∈ timers (env s)) then detectFaces s else s.

Inductive Event :=
| DOMContentLoaded
| Click (b : ButtonId)                       (* the user clicks a button of the page *)
| ClickDelete (n : nat) (confirmed : bool)   (* ... the n-th delete button of the table *)
| ChangeFile (f : option File)               (* ... picks a file in #face-image-upload *)
| ChooseUser (v : string)                    (* ... picks a value of #user-id *)
| Frame (f : string)                         (* the video shows a new frame *)
| Tick (t : TimerId)
| Settle (i : nat) (r : Reply)
| Call (b : ButtonId).                       (* a script calls the method directly *)

(** A disabled button dispatches no click. *)
Definition step (s : State) (e : Event) : State :=
  match e with
  | DOMContentLoaded => init s
  | Click b => if disabled (button b s) then s else bindEvents b s
  | ClickDelete n confirmed =>
      match delete_buttons s !! n with
      | Some faceId => final (delete_face_click faceId confirmed s)
      | None => s
      end
  | ChangeFile f => handleImageUpload f s
  | ChooseUser v => set_user_id v s
  | Frame f => set_videoFrame f s
  | Tick t => tick t s
  | Settle i r => settle i r s
  | Call b => bindEvents b s
  end.

Definition run (s : State) (es : list Event) : State := fold_left step es s.

(** Events of the page alone: no script calls into the controller. *)
Definition from_page (e : Event) : bool :=
  match e with Call _ => false | _ => true end.

(** ** The session state machine *)

Inductive Kind := recognize | register | roster_delete.

Inductive SessionState :=
| Idle
| CameraActive
| Detecting
| RequestInFlight (k : Kind).

Inductive Op :=
| acquire (sid : StreamId)     (* startCamera, and the platform grants stream sid *)
| start                        (* startDetection *)
| stop                         (* stopDetection *)
| release.                     (* stopCamera *)

(** The specification side of the comparison: the transitions that the
    machine of spec §4.4 has for the four lifecycle operations; [None]
    where it has none. *)
Definition transition (st : SessionState) (o : Op) : option SessionState :=
  match st, o with
  | Idle, acquire _ => Some CameraActive
  | CameraActive, start => Some Detecting
  | Detecting, stop => Some CameraActive
  | CameraActive, release => Some Idle
  | Detecting, release => Some Idle
  | _, _ => None
  end.

(** A transition the machine does not have leaves the state unchanged. *)
Definition fsm_step (st : SessionState) (o : Op) : SessionState :=
  default st (transition st o).

Definition fsm_run (st : SessionState) (os : list Op) : SessionState :=
  fold_left fsm_step os st.

(** The session state the controller is in: read off [stream] and [isDetecting]. *)
Definition session_state (s : State) : SessionState :=
  match stream (this s) with
  | None => Idle
  | Some _ => if isDetecting (this s) then Detecting else CameraActive
  end.

Definition perform (s : State) (o : Op) : State :=
  match o with
  | acquire sid =>
      s |> startCamera |> settle (length (pending (env s))) (CameraGranted sid)
  | start => startDetection s
  | stop => stopDetection s
  | release => stopCamera s
  end.

Definition perform_all (s : State) (os : list Op) : State := fold_left perform os s.

(** The call did nothing but report [message] as a warning. *)
Definition refused_with (message : string) (s s' : State) : Prop :=
  s' = showToast message "warning" s.

(** Requests of one kind that are in flight. *)
Definition is_recognize (q : Request) : bool :=
  match q with ReqRecognize _ _ => true | _ => false end.
Definition is_register (q : Request) : bool :=
  match q with ReqRegister _ _ _ => true | _ => false end.
Definition is_delete (q : Request) : bool :=
  match q with ReqDeleteFace _ => true | _ => false end.

Definition in_flight (p : Request -> bool) (s : State) : nat :=
  length (filter (fun q => p q = true) (pending (env s))).

(** ** A page to run on *)

Definition page0 : State :=
  let enabled t := {| disabled := false; innerHTML := Text t |} in
  let off t := {| disabled := true; innerHTML := Text t |} in
  {| this := {| stream := None; faceDetectionModel := false; currentFaces := [];
                isDetecting := false; detectionInterval := None |};
     dom := {| video_srcObject := None; canvas := [];
               buttons := {| btn_start_camera := enabled "启动摄像头";
                             btn_stop_camera := off "停止摄像头";
                             btn_start_detection := enabled "开始检测";
                             btn_stop_detection := off "停止检测";
                             btn_capture_photo := enabled "拍照";
                             btn_register_face := enabled "注册人脸";
                             btn_recognize_attendance := enabled "识别考勤" |};
               texts := {| txt_camera_status := ""; txt_detection_status := "";
                           txt_model_status := ""; txt_face_count := "0" |};
               face_image_data := ""; user_id := ""; photo_preview := "";
               recognition_result := None; face_data_table_body := TableStatic |};
     env := {| mediaDevices := true; videoFrame := "data:image/jpeg;base64,AA";
               liveStreams := []; timers := []; nextTimer := 1%positive; pending := [];
               toasts := []; console := []; sounds := [] |} |}.

(** ** Predicates used in the statements *)

(** What the lifecycle needs of a state: the platform has [getUserMedia],
    and detection is not marked as running without a stream. *)
Definition consistent (s : State) : Prop :=
  mediaDevices (env s) = true /\
  (stream (this s) = None -> isDetecting (this s) = false).

(** A request of kind [p] is in flight only while button [b] is disabled,
    and then it is the only one. *)
Definition guarded (p : Request -> bool) (b : ButtonId) (s : State) : Prop :=
  in_flight p s = 0 \/ (in_flight p s = 1 /\ disabled (button b s) = true).

Definition buttons_guard (s : State) : Prop :=
  guarded is_recognize recognize_attendance s /\ guarded is_register register_face s.

Definition count (p : Request -> bool) (l : list Request) : nat :=
  length (filter (fun q => p q = true) l).

(** A settled recognition request: a 2xx response or a rejection. *)
Definition is_recognize_reply (r : Reply) : bool :=
  match r with
  | HttpRecognize _ | HttpError _ => true
  | _ => false
  end.

(** No detection of the list makes [drawDetections] throw. *)
Definition all_drawable (ds : list Detection) : bool :=
  forallb (fun d => match det_expressions d with [] => false | _ :: _ => true end) ds.

(** The detection of one sample failed: the capability threw, the request
    was rejected, or drawing its result threw inside the same [try]. *)
Definition detection_failed (q : Request) (r : Reply) : bool :=
  match q, r with
  | ReqLocalDetect, DetectorThrew => true
  | ReqLocalDetect, Detections ds => negb (all_drawable ds)
  | ReqBackendDetect _, HttpError _ => true
  | _, _ => false
  end.

(** The detection of one sample succeeded, with these faces. *)
Definition detection_succeeded (q : Request) (r : Reply) : option (list Face) :=
  match q, r with
  | ReqLocalDetect, Detections ds =>
      if all_drawable ds then Some (map LocalFace ds) else None
  | ReqBackendDetect _, HttpFaces faces => Some (map RemoteFace (default [] faces))
  | _, _ => None
  end.

(** A failed sample is logged and leaves the loop and the stored result alone. *)
Definition absorbed (s s' : State) : Prop :=
  console (env s') = console (env s) ++ ["人脸检测失败:"] /\
  timers (env s') = timers (env s) /\
  detectionInterval (this s') = detectionInterval (this s) /\
  isDetecting (this s') = isDetecting (this s) /\
  currentFaces (this s') = currentFaces (this s).

Definition state_of (o : Outcome) : State :=
  match o with Normal s | Thrown s => s end.

(** ** Pages reached from [page0] *)

Definition face_a : BackendFace :=
  {| face_box := {| box_x := 10; box_y := 20; box_width := 30; box_height := 40 |};
     face_name := Some "A" |}.

Definition face_b : BackendFace :=
  {| face_box := {| box_x := 50; box_y := 60; box_width := 30; box_height := 40 |};
     face_name := Some "B" |}.

Definition matched : RecognizeResult :=
  {| res_success := true; res_name := "A"; res_employee_id := "E1";
     res_action := "签到"; res_time := "09:00"; res_message := None |}.

Definition row_1 : FaceRow :=
  {| row_id := "1"; row_user_id := "7"; row_name := "A";
     row_image_url := "/static/faces/1.jpg"; row_created_at := "2024-01-01T09:00:00" |}.

(** The page has loaded; the models could not be, so detection goes
    through the backend. *)
Definition loaded_page : State :=
  run page0 [DOMContentLoaded; Settle 0 ModelsFailed].

(** The camera is on. *)
Definition camera_page : State :=
  run loaded_page [Click start_camera; Settle 0 (CameraGranted 1)].

(** Detection runs on interval 1. *)
Definition detecting_page : State :=
  run camera_page [Click start_detection].

(** Two samples have been sent to the backend, neither answered yet. *)
Definition two_samples_page : State :=
  run detecting_page [Frame "sample N"; Tick 1%positive; Frame "sample N+1"; Tick 1%positive].

(** The answer to the newer sample came first and showed no face; the
    answer to the older one came after it, with a face. *)
Definition late_answer_page : State :=
  run two_samples_page
    [Settle 1 (HttpFaces (Some [])); Settle 0 (HttpFaces (Some [face_a]))].

(** One sample came back with a face. *)
Definition face_page : State :=
  run detecting_page [Tick 1%positive; Settle 0 (HttpFaces (Some [face_a]))].

(** A recognition request is in flight. *)
Definition recognizing_page : State :=
  run face_page [Click recognize_attendance].


(** A registration request is in flight. *)
Definition registering_page : State :=
  run camera_page [Click capture_photo; ChooseUser "7"; Click register_face].

(** The roster table shows one row. *)
Definition roster_page : State :=
  run registering_page [Settle 0 HttpOk; Settle 0 (HttpRows (Some [row_1]))].

(** [startDetection] was called twice. *)
Definition double_start_page : State :=
  perform_all loaded_page [acquire 1; start; start].

(** ... and then [stopCamera]. *)
Definition released_after_double_start : State :=
  perform double_start_page release.

(** All the page events used above, and a click on the delete button. *)
Definition roster_events : list Event :=
  [ DOMContentLoaded; Settle 0 ModelsFailed;
    Click start_camera; Settle 0 (CameraGranted 1);
    Click capture_photo; ChooseUser "7"; Click register_face;
    Settle 0 HttpOk; Settle 0 (HttpRows (Some [row_1]));
    ClickDelete 0 true ].

Definition recognize_events : list Event :=
  [ DOMContentLoaded; Settle 0 ModelsFailed;
    Click start_camera; Settle 0 (CameraGranted 1); Click start_detection;
    Tick 1%positive; Settle 0 (HttpFaces (Some [face_a]));
    Click recognize_attendance; Click recognize_attendance;
    Click capture_photo; ChooseUser "7"; Click register_face; Click register_face ].

(** The start button was clicked twice before the camera was granted. *)
Definition double_acquire_page : State :=
  run loaded_page [Click start_camera; Click start_camera;
             Settle 0 (CameraGranted 1); Settle 0 (CameraGranted 2)].

(** * Further definitions *)

(** ** Bookkeeping of the controller (used in the statements below) *)

(** Interval handles are handed out in increasing order: every armed
    interval, and the registered one, is below [nextTimer]. *)
Definition fresh (s : State) : Prop :=
  Forall (fun t => (t < nextTimer (env s))%positive) (timers (env s)) /\
  (forall t, detectionInterval (this s) = Some t -> (t < nextTimer (env s))%positive).

(** The only armed interval is the registered one, and it is registered
    only while detection is marked as running on a held stream, with the
    start button disabled. *)
Definition tracked (s : State) : Prop :=
  match detectionInterval (this s) with
  | None => timers (env s) = [] /\ isDetecting (this s) = false
  | Some t =>
      timers (env s) = [t] /\ isDetecting (this s) = true /\
      stream (this s) <> None /\ disabled (button start_detection s) = true
  end.

(** The video element and the camera and detection buttons show what the
    controller holds. *)
Definition mirrors (s : State) : Prop :=
  video_srcObject (dom s) = stream (this s) /\
  disabled (button start_camera s) = bool_decide (stream (this s) <> None) /\
  disabled (button stop_camera s) = bool_decide (stream (this s) = None) /\
  disabled (button start_detection s) = isDetecting (this s) /\
  disabled (button stop_detection s) = negb (isDetecting (this s)).

(** A handle that is not armed and was handed out already is never armed again. *)
Definition retired (t : TimerId) (s : State) : Prop :=
  (t < nextTimer (env s))%positive /\ t ∉ timers (env s).


(** What the backend response of one sample draws for a face: its box,
    and its name when it has one. *)
Definition face_draws (f : BackendFace) : list Draw :=
  StrokeRect (box_x (face_box f)) (box_y (face_box f))
             (box_width (face_box f)) (box_height (face_box f)) ::
  match face_name f with
  | Some n => if truthy n then [FillText n (box_x (face_box f)) (box_y (face_box f) - 5)] else []
  | None => []
  end.

(** What a local detection draws: its box and its strongest expression. *)
Definition detection_draws (d : Detection) : list Draw :=
  StrokeRect (box_x (det_box d)) (box_y (det_box d))
             (box_width (det_box d)) (box_height (det_box d)) ::
  match maxExpression (det_expressions d) with
  | Some m => [FillText m (box_x (det_box d)) (box_y (det_box d) - 5)]
  | None => []
  end.

(** [p] occurs in [s]. *)
Definition occurs_in (p s : string) : Prop := exists a b, s = a +:+ p +:+ b.

(** ** [window.ATT.formatDateTime], called by [renderFaceDataTable] *)

(** What the getters of a valid [Date] return. *)
Record DateFields := {
  getFullYear : Z;
  getMonth : nat;                       (* 0 to 11 *)
  getDate : nat;
  getHours : nat;
  getMinutes : nat
}.

Fixpoint zeros (n : nat) : string :=
  match n with
  | 0 => ""
  | S n' => "0" +:+ zeros n'
  end.

(** [s.padStart(targetLength, '0')] *)
Definition padStart (targetLength : nat) (s : string) : string :=
  zeros (targetLength - String.length s) +:+ s.

(** [formatDateTime(dateString)].  [newDate] is [new Date(dateString)]:
    [None] is an Invalid Date, all of whose getters return NaN. *)
Definition formatDateTime (newDate : string -> option DateFields) (dateString : string)
    : string :=
  if negb (truthy dateString) then ""
  else
    let date := newDate dateString in
    let String_ (get : DateFields -> string) :=
      match date with Some d => get d | None => "NaN" end in
    let year := String_ (fun d => pretty (getFullYear d)) in
    let month := padStart 2 (String_ (fun d => pretty (getMonth d + 1))) in
    let day := padStart 2 (String_ (fun d => pretty (getDate d))) in
    let hours := padStart 2 (String_ (fun d => pretty (getHours d))) in
    let minutes := padStart 2 (String_ (fun d => pretty (getMinutes d))) in
    year +:+ "-" +:+ month +:+ "-" +:+ day +:+ " " +:+ hours +:+ ":" +:+ minutes.

(** A date of the years 1000 to 9999. *)
Definition four_digit_year (d : DateFields) : Prop :=
  (1000 <= getFullYear d <= 9999)%Z /\
  getMonth d < 12 /\ getDate d < 100 /\ getHours d < 100 /\ getMinutes d < 100.

Definition two_digits (n : nat) : string := padStart 2 (pretty n).

(** ** Calls with their completions, and more pages *)

(** The page has loaded and so have the models. *)
Definition models_page : State :=
  run page0 [DOMContentLoaded; Settle 0 ModelsLoaded].

Definition failing_detector_events : list Event :=
  [ Click start_camera; Settle 0 (CameraGranted 1); Click start_detection;
    Tick 1%positive; Settle 0 DetectorThrew; Tick 1%positive ].


(** A call that issues a request, followed by the settlement of that request. *)
Definition recognize_and_settle (r : Reply) (s : State) : State :=
  settle (length (pending (env s))) r (recognizeAttendance s).

Definition register_and_settle (r : Reply) (s : State) : State :=
  settle (length (pending (env s))) r (registerFace s).

Definition startCamera_and_settle (r : Reply) (s : State) : State :=
  settle (length (pending (env s))) r (startCamera s).

Definition upload_and_load (f : File) (s : State) : State :=
  settle (length (pending (env s))) Loaded (handleImageUpload (Some f) s).

(** The photo just captured, a user chosen: what a page needs to register. *)
Definition photo_page : State :=
  run camera_page [Click capture_photo; ChooseUser "7"].

Definition png : File :=
  {| file_type := "image/png"; file_size := 5242880; file_dataURL := "data:image/png;base64,AA" |}.

(** ... and one sample is with the local detector. *)
Definition local_sample_page : State :=
  run models_page [Click start_camera; Settle 0 (CameraGranted 1);
                   Click start_detection; Tick 1%positive].

(** A recognition that did not succeed: a rejected request, or a response
    whose [success] is false. *)
Definition recognition_failed (r : Reply) : bool :=
  match r with
  | HttpError _ => true
  | HttpRecognize result => negb (res_success result)
  | _ => false
  end.

Definition a_detection : Detection :=
  {| det_box := {| box_x := 10; box_y := 20; box_width := 30; box_height := 40 |};
     det_expressions := [("neutral", 10%Z); ("happy", 85%Z); ("sad", 85%Z)] |}.


(** * Proofs *)

(** ** Tactics and list facts *)

Ltac destruct_state s :=
  destruct s as [[st fm cf isd di]
                 [vs cv [b1 b2 b3 b4 b5 b6 b7] [t1 t2 t3 t4] fid uid pp rr tb]
                 [md vf ls tm nt pd ts co so]].

Lemma truthy_empty (v : string) : truthy v = false <-> v = "".
Proof. destruct v; simpl; split; congruence. Qed.

Lemma lookup_just_issued {A} (l : list A) (x : A) : (l ++ [x]) !! length l = Some x.
Proof. by rewrite (list_lookup_middle l [] x). Qed.

Lemma in_flight_count (p : Request -> bool) (s : State) :
  in_flight p s = count p (pending (env s)).
Proof. reflexivity. Qed.

Lemma count_app p l1 l2 : count p (l1 ++ l2) = count p l1 + count p l2.
Proof. unfold count. by rewrite filter_app, length_app. Qed.

Lemma count_cons p q l : count p (q :: l) = (if p q then 1 else 0) + count p l.
Proof. unfold count. rewrite filter_cons. destruct (p q); reflexivity. Qed.

Lemma count_one p q : count p [q] = if p q then 1 else 0.
Proof. rewrite count_cons. unfold count. rewrite filter_nil. simpl. lia. Qed.

Lemma count_delete p (l : list Request) : forall i q,
  l !! i = Some q ->
  count p l = (if p q then 1 else 0) + count p (delete i l).
Proof.
  induction l as [|x l IH]; intros [|i] q H; simpl in *; try done.
  - injection H as ->. apply count_cons.
  - rewrite !count_cons, (IH i q H). lia.
Qed.

Ltac counts :=
  repeat first [ rewrite count_app | rewrite count_one ]; simpl.

Ltac settle_goal :=
  simpl; counts; rewrite ?Nat.add_0_r in *; intuition (congruence || lia).

(** ** Drawing leaves the controller, the browser and the buttons alone *)

Lemma drawDetections_frame ds : forall s,
  this (state_of (drawDetections ds s)) = this s /\
  env (state_of (drawDetections ds s)) = env s /\
  buttons (dom (state_of (drawDetections ds s))) = buttons (dom s).
Proof.
  induction ds as [|d ds IH]; intros s; simpl; [done|].
  destruct (maxExpression (det_expressions d)) as [m|]; [|done].
  destruct (IH (draw (FillText m (box_x (det_box d)) (box_y (det_box d) - 5))
                  (strokeRect (det_box d) s))) as (H1 & H2 & H3).
  rewrite H1, H2, H3. done.
Qed.

Lemma drawDetections_outcome ds : forall s,
  match drawDetections ds s with
  | Normal _ => all_drawable ds = true
  | Thrown _ => all_drawable ds = false
  end.
Proof.
  induction ds as [|d ds IH]; intros s; simpl; [done|].
  destruct (det_expressions d) as [|e es]; simpl; [done|]. apply IH.
Qed.

Lemma fold_drawFace_frame faces : forall s,
  this (fold_left drawFace faces s) = this s /\
  env (fold_left drawFace faces s) = env s /\
  buttons (dom (fold_left drawFace faces s)) = buttons (dom s).
Proof.
  induction faces as [|f fs IH]; intros s; simpl; [done|].
  destruct (IH (drawFace s f)) as (H1 & H2 & H3). rewrite H1, H2, H3.
  unfold drawFace. destruct (face_name f) as [n|]; [destruct (truthy n)|]; done.
Qed.

(** A backend detection response replaces the stored faces and only takes
    its own request out of the pending ones. *)
Lemma settle_backend_faces (s : State) (i : nat) (image : string)
    (faces : option (list BackendFace)) :
  pending (env s) !! i = Some (ReqBackendDetect image) ->
  currentFaces (this (settle i (HttpFaces faces) s)) = map RemoteFace (default [] faces) /\
  pending (env (settle i (HttpFaces faces) s)) = delete i (pending (env s)).
Proof.
  intros H. unfold settle. rewrite H. split; [reflexivity|].
  unfold detectFacesWithBackend_then. simpl.
  match goal with |- context [fold_left drawFace ?fs ?s0] =>
    destruct (fold_drawFace_frame fs s0) as (_ & F & _) end.
  rewrite F. reflexivity.
Qed.

(** ** The lifecycle operations *)

Lemma perform_simulates (s : State) (o : Op) :
  consistent s ->
  consistent (perform s o) /\
  session_state (perform s o) = fsm_step (session_state s) o.
Proof.
  intros [Hm Hw]. destruct_state s. simpl in *. subst md.
  destruct o; unfold consistent, session_state, fsm_step.
  - unfold perform, startCamera. cbn -[lookup]. unfold settle. cbn -[lookup delete].
    rewrite lookup_just_issued. cbn -[lookup delete].
    destruct st; [destruct isd; done|]. rewrite Hw; done.
  - destruct st; [destruct isd; done|]. simpl. rewrite Hw; done.
  - destruct st, di; simpl; try destruct isd; try done.
  - destruct st, di; simpl; try destruct isd; try done; rewrite Hw; done.
Qed.

Lemma perform_all_simulates (os : list Op) : forall s,
  consistent s ->
  consistent (perform_all s os) /\
  session_state (perform_all s os) = fsm_run (session_state s) os.
Proof.
  induction os as [|o os IH]; intros s Hs; simpl; [done|].
  destruct (perform_simulates s o Hs) as [Hc He].
  destruct (IH _ Hc) as [Hc' He']. rewrite <- He. done.
Qed.

Lemma start_from_idle (s : State) :
  session_state s = Idle -> refused_with "请先启动摄像头" s (startDetection s).
Proof.
  unfold session_state, startDetection, refused_with.
  destruct (stream (this s)); [destruct (isDetecting (this s)); discriminate|].
  reflexivity.
Qed.

Lemma release_from_idle (s : State) : session_state s = Idle -> stopCamera s = s.
Proof.
  unfold session_state, stopCamera.
  destruct (stream (this s)); [destruct (isDetecting (this s)); discriminate|].
  reflexivity.
Qed.

Lemma stopDetection_silent (s : State) :
  toasts (env (stopDetection s)) = toasts (env s) /\
  pending (env (stopDetection s)) = pending (env s).
Proof. unfold stopDetection. simpl. destruct (detectionInterval (this s)); done. Qed.

(** [stopCamera] on its own: what it guarantees in every state. *)
Lemma stopCamera_idempotent (s : State) : stopCamera (stopCamera s) = stopCamera s.
Proof. destruct_state s. unfold stopCamera. simpl. destruct st, di; reflexivity. Qed.

Lemma stopCamera_clears_handle (s : State) :
  stream (this (stopCamera s)) = None /\ session_state (stopCamera s) = Idle.
Proof.
  destruct_state s. unfold stopCamera, session_state. simpl. destruct st, di; done.
Qed.

Lemma stopCamera_stops_registered (s : State) (h : StreamId) :
  stream (this s) = Some h ->
  (h ∉ liveStreams (env (stopCamera s))) /\
  isDetecting (this (stopCamera s)) = false /\
  detectionInterval (this (stopCamera s)) = None /\
  forall t, detectionInterval (this s) = Some t -> t ∉ timers (env (stopCamera s)).
Proof.
  destruct_state s. simpl. intros ->. unfold stopCamera. cbn -[filter].
  destruct di as [t|]; cbn -[filter]; (split; [rewrite list_elem_of_filter; tauto|]);
    repeat split; try done.
  intros t' [= <-]. rewrite list_elem_of_filter. tauto.
Qed.

(** ** Runs of page events *)

Lemma delete_face_click_throws (faceId : string) (confirmed : bool) (s : State) :
  delete_face_click faceId confirmed s = TypeError s.
Proof. reflexivity. Qed.

Ltac split_conditions :=
  repeat match goal with
         | |- context [match ?f with Some _ => _ | None => _ end] => destruct f eqn:?; simpl
         | |- context [if ?c then _ else _] => destruct c eqn:?; simpl
         end.

Ltac click_cases s b :=
  rewrite ?in_flight_count; destruct_state s; simpl; intros H;
  destruct b; simpl;
  unfold startCamera, stopCamera, startDetection, capturePhoto, registerFace,
    recognizeAttendance; simpl;
  split_conditions; settle_goal.

Ltac settle_cases s i r :=
  rewrite ?in_flight_count; intros H;
  destruct (pending (env s) !! i) as [q|] eqn:Hq; [|exact H];
  pose proof (count_delete is_recognize _ _ _ Hq) as E1;
  pose proof (count_delete is_register _ _ _ Hq) as E2;
  pose proof (count_delete is_delete _ _ _ Hq) as E3;
  destruct_state s; simpl in *; clear Hq;
  destruct q, r; try exact H; simpl in *; rewrite ?in_flight_count;
  try solve [settle_goal];
  try solve [unfold recognizeAttendance_then; destruct (res_success _); settle_goal];
  try solve [unfold loadFaceData_then, renderFaceDataTable;
             destruct (default [] _); settle_goal];
  try solve [unfold detectFacesWithBackend_then; simpl; unfold button; simpl;
             match goal with |- context [fold_left drawFace ?fs ?s0] =>
               let F2 := fresh "F" in
               let F3 := fresh "F" in
               destruct (fold_drawFace_frame fs s0) as (_ & F2 & F3);
               rewrite F2, ?F3 end;
             settle_goal];
  try solve [unfold detectFacesWithFaceAPI_resume;
             match goal with |- context [drawDetections ?ds ?s0] =>
               let F2 := fresh "F" in
               let F3 := fresh "F" in
               destruct (drawDetections_frame ds s0) as (_ & F2 & F3);
               destruct (drawDetections ds s0);
               simpl in *; unfold button; simpl; rewrite F2, ?F3 end;
             settle_goal].

Ltac other_cases s :=
  rewrite ?in_flight_count; destruct_state s; intros H;
  unfold handleImageUpload, tick, detectFaces; simpl;
  split_conditions; settle_goal.

Lemma click_guard (b : ButtonId) (s : State) :
  buttons_guard s -> buttons_guard (step s (Click b)).
Proof. unfold buttons_guard, guarded. click_cases s b. Qed.

Lemma settle_guard (i : nat) (r : Reply) (s : State) :
  buttons_guard s -> buttons_guard (settle i r s).
Proof. unfold buttons_guard, guarded, settle. settle_cases s i r. Qed.

Lemma step_guard (s : State) (e : Event) :
  from_page e = true -> buttons_guard s -> buttons_guard (step s e).
Proof.
  destruct e; simpl; try discriminate; intros _.
  - unfold buttons_guard, guarded. other_cases s.
  - apply (click_guard b).
  - destruct (delete_buttons s !! n); tauto.
  - unfold buttons_guard, guarded. other_cases s.
  - tauto.
  - tauto.
  - unfold buttons_guard, guarded. other_cases s.
  - apply settle_guard.
Qed.

Lemma run_guard (es : list Event) : forall s,
  forallb from_page es = true -> buttons_guard s -> buttons_guard (run s es).
Proof.
  induction es as [|e es IH]; intros s Hes Hs; simpl; [done|].
  simpl in Hes. apply andb_prop in Hes as [He Hes].
  apply IH; [done|]. by apply step_guard.
Qed.

Lemma click_no_delete (b : ButtonId) (s : State) :
  in_flight is_delete s = 0 -> in_flight is_delete (step s (Click b)) = 0.
Proof. click_cases s b. Qed.

Lemma settle_no_delete (i : nat) (r : Reply) (s : State) :
  in_flight is_delete s = 0 -> in_flight is_delete (settle i r s) = 0.
Proof. unfold settle. settle_cases s i r. Qed.

Lemma step_no_delete (s : State) (e : Event) :
  from_page e = true -> in_flight is_delete s = 0 -> in_flight is_delete (step s e) = 0.
Proof.
  destruct e; simpl; try discriminate; intros _.
  - other_cases s.
  - apply (click_no_delete b).
  - destruct (delete_buttons s !! n); tauto.
  - other_cases s.
  - tauto.
  - tauto.
  - other_cases s.
  - apply settle_no_delete.
Qed.

Lemma run_no_delete (es : list Event) : forall s,
  forallb from_page es = true -> in_flight is_delete s = 0 ->
  in_flight is_delete (run s es) = 0.
Proof.
  induction es as [|e es IH]; intros s Hes Hs; simpl; [done|].
  simpl in Hes. apply andb_prop in Hes as [He Hes].
  apply IH; [done|]. by apply step_no_delete.
Qed.

Lemma guarded_click (p : Request -> bool) (b : ButtonId) (s : State) :
  guarded p b s ->
  in_flight p s <= 1 /\
  (in_flight p s = 1 -> disabled (button b s) = true /\ step s (Click b) = s).
Proof.
  intros [G|[G D]]; (split; [lia|]); intros E; [lia|].
  split; [exact D|]. unfold step. rewrite D. reflexivity.
Qed.

(** ** The methods on the pages above *)

Example loaded_page_uses_backend :
  faceDetectionModel (this loaded_page) = false /\
  txt_model_status (texts (dom loaded_page)) = "使用后端API" /\
  console (env loaded_page) = ["加载模型失败:"; "使用后端API进行人脸识别"] /\
  pending (env loaded_page) = [].
Proof. repeat split; reflexivity. Qed.

Example camera_page_active :
  session_state camera_page = CameraActive /\
  liveStreams (env camera_page) = [1] /\
  disabled (button start_camera camera_page) = true.
Proof. repeat split; reflexivity. Qed.

Example face_page_has_a_face :
  currentFaces (this face_page) = [RemoteFace face_a] /\
  txt_face_count (texts (dom face_page)) = "1" /\
  canvas (dom face_page)
  = [DrawVideo "data:image/jpeg;base64,AA"; StrokeRect 10 20 30 40; FillText "A" 10 15].
Proof. repeat split; reflexivity. Qed.

Example recognizing_page_in_flight :
  pending (env recognizing_page) = [ReqRecognize "data:image/jpeg;base64,AA" "识别考勤"] /\
  button recognize_attendance recognizing_page
  = {| disabled := true; innerHTML := Spinner "识别中..." |}.
Proof. repeat split; reflexivity. Qed.

Example recognition_succeeds :
  button recognize_attendance (settle 0 (HttpRecognize matched) recognizing_page)
  = {| disabled := false; innerHTML := Text "识别考勤" |} /\
  recognition_result (dom (settle 0 (HttpRecognize matched) recognizing_page))
  = Some matched.
Proof. repeat split; reflexivity. Qed.

Example roster_page_rendered :
  face_data_table_body (dom roster_page) = TableRows [row_1] /\
  pending (env roster_page) = [] /\
  toasts (env roster_page) = [("拍照成功", "success"); ("人脸注册成功", "success")].
Proof. repeat split; reflexivity. Qed.

Example maxExpression_picks_highest :
  maxExpression [("neutral", 10%Z); ("happy", 85%Z); ("sad", 5%Z)] = Some "happy" /\
  maxExpression [] = None.
Proof. split; reflexivity. Qed.

(** In [bindEvents] the same expression reaches the controller's method. *)
Example bindEvents_self_is_controller :
  Js.resolve "self" Js.bindEvents_handler_chain = Some Js.VController /\
  Js.get Js.VController "deleteFaceData" = Some (Js.VMethod "deleteFaceData").
Proof. split; reflexivity. Qed.

(** A stream granted to an earlier click is overwritten by the later grant
    and stays live when the camera is stopped. *)
Example release_after_double_acquire_keeps_stream :
  stream (this double_acquire_page) = Some 2 /\
  liveStreams (env double_acquire_page) = [1; 2] /\
  liveStreams (env (step double_acquire_page (Click stop_camera))) = [1].
Proof. repeat split; reflexivity. Qed.

(** ** The claims *)

(** C1, as stated, fails.  With the camera on and no detection running,
    §4.4 has no transition for stop, yet [stopDetection] is not refused: it
    reports nothing and rewrites the detection status.  The same holds for
    start on a page that is already Detecting: [startDetection] reports
    nothing and is not refused. *)
Lemma illegal_operations_are_not_refused :
  session_state camera_page = CameraActive /\
  transition (session_state camera_page) stop = None /\
  (forall m, ~ refused_with m camera_page (perform camera_page stop)) /\
  toasts (env (perform camera_page stop)) = toasts (env camera_page) /\
  txt_detection_status (texts (dom camera_page)) = "" /\
  txt_detection_status (texts (dom (perform camera_page stop))) = "检测已停止" /\
  session_state detecting_page = Detecting /\
  transition (session_state detecting_page) start = None /\
  (forall m, ~ refused_with m detecting_page (perform detecting_page start)) /\
  toasts (env (perform detecting_page start)) = toasts (env detecting_page).
Proof.
  repeat split; try reflexivity.
  - intros m H. unfold refused_with in H.
    apply (f_equal (fun x => txt_detection_status (texts (dom x)))) in H.
    vm_compute in H. discriminate.
  - intros m H. unfold refused_with in H.
    apply (f_equal (fun x => detectionInterval (this x))) in H.
    vm_compute in H. discriminate.
Qed.

(** C1, amended: for every sequence of acquire, start, stop and release the
    session state read off [stream] and [isDetecting] is the one the
    machine of §4.4 reaches, and an operation without a transition leaves
    it unchanged.  Of those operations start from Idle is refused (one
    warning, nothing else changes); release from Idle does nothing at all;
    stop when no detection runs reports no failure. *)
Theorem lifecycle_follows_fsm (s : State) (os : list Op) :
  consistent s ->
  session_state (perform_all s os) = fsm_run (session_state s) os /\
  (forall o, transition (session_state (perform_all s os)) o = None ->
     session_state (perform (perform_all s os) o) = session_state (perform_all s os)) /\
  (session_state (perform_all s os) = Idle ->
     refused_with "请先启动摄像头" (perform_all s os) (perform (perform_all s os) start) /\
     perform (perform_all s os) release = perform_all s os) /\
  (transition (session_state (perform_all s os)) stop = None ->
     toasts (env (perform (perform_all s os) stop)) = toasts (env (perform_all s os))).
Proof.
  intros Hs. destruct (perform_all_simulates os s Hs) as [Hc He].
  split; [exact He|]. split; [|split].
  - intros o Hn. destruct (perform_simulates _ o Hc) as [_ E]. rewrite E.
    unfold fsm_step. rewrite Hn. reflexivity.
  - intros Hi. split; [apply start_from_idle | apply release_from_idle]; exact Hi.
  - intros _. apply stopDetection_silent.
Qed.

Lemma lifecycle_follows_fsm_witness :
  consistent page0 /\
  session_state (perform_all page0 [acquire 1; start; stop; release; start])
  = fsm_run (session_state page0) [acquire 1; start; stop; release; start].
Proof.
  assert (H : consistent page0) by (split; intros; reflexivity).
  split; [exact H|].
  exact (proj1 (lifecycle_follows_fsm page0 [acquire 1; start; stop; release; start] H)).
Defined.

(** C2, as stated, fails: a second [recognizeAttendance] call while one
    request is pending shows no failure and sends a second request; and
    with page clicks alone a recognition and a registration are in flight
    together. *)
Lemma second_recognize_call_is_issued :
  in_flight is_recognize recognizing_page = 1 /\
  in_flight is_recognize (step recognizing_page (Call recognize_attendance)) = 2 /\
  toasts (env (step recognizing_page (Call recognize_attendance)))
  = toasts (env recognizing_page) /\
  in_flight is_recognize
    (run recognizing_page [Click capture_photo; ChooseUser "7"; Click register_face]) = 1 /\
  in_flight is_register
    (run recognizing_page [Click capture_photo; ChooseUser "7"; Click register_face]) = 1.
Proof. repeat split; reflexivity. Qed.

(** C2, amended: along every run of page events that starts with no
    recognition and no registration in flight, at most one recognition and
    at most one registration are in flight, each only while its button is
    disabled, so that a further click on that button is not delivered. *)
Theorem one_request_per_button (s : State) (es : list Event) :
  forallb from_page es = true ->
  in_flight is_recognize s = 0 ->
  in_flight is_register s = 0 ->
  in_flight is_recognize (run s es) <= 1 /\
  in_flight is_register (run s es) <= 1 /\
  (in_flight is_recognize (run s es) = 1 ->
   disabled (button recognize_attendance (run s es)) = true /\
   step (run s es) (Click recognize_attendance) = run s es) /\
  (in_flight is_register (run s es) = 1 ->
   disabled (button register_face (run s es)) = true /\
   step (run s es) (Click register_face) = run s es).
Proof.
  intros Hes H1 H2.
  assert (G : buttons_guard (run s es)).
  { apply run_guard; [exact Hes|]. split; left; assumption. }
  destruct G as [G1 G2].
  destruct (guarded_click _ _ _ G1) as [L1 C1].
  destruct (guarded_click _ _ _ G2) as [L2 C2].
  auto.
Qed.

Lemma one_request_per_button_witness :
  forallb from_page recognize_events = true /\
  in_flight is_recognize page0 = 0 /\
  in_flight is_register page0 = 0 /\
  in_flight is_recognize (run page0 recognize_events) <= 1 /\
  in_flight is_register (run page0 recognize_events) <= 1.
Proof.
  split; [reflexivity|]. split; [reflexivity|]. split; [reflexivity|].
  pose proof (one_request_per_button page0 recognize_events eq_refl eq_refl eq_refl) as H.
  split; [exact (proj1 H) | exact (proj1 (proj2 H))].
Defined.




(** C4, as stated, fails: two samples are sent; the response for sample N+1
    is applied first; the response for sample N arrives afterwards and
    replaces it. *)
Lemma older_response_overwrites_newer :
  pending (env two_samples_page)
  = [ReqBackendDetect "sample N"; ReqBackendDetect "sample N+1"] /\
  currentFaces (this (run two_samples_page [Settle 1 (HttpFaces (Some [face_b]))]))
  = [RemoteFace face_b] /\
  pending (env (run two_samples_page [Settle 1 (HttpFaces (Some [face_b]))]))
  = [ReqBackendDetect "sample N"] /\
  currentFaces (this (run two_samples_page [Settle 1 (HttpFaces (Some [face_b]));
                                            Settle 0 (HttpFaces (Some [face_a]))]))
  = [RemoteFace face_a].
Proof. repeat split; reflexivity. Qed.

(** C4, amended: detection results are applied in the order the responses
    arrive.  Of two samples waiting for the backend (the older one issued
    first, so earlier in the pending list), if the newer one's response
    is applied first and the older one's arrives afterwards, the older
    one's faces replace the newer one's. *)
Theorem detection_results_in_arrival_order
    (s : State) (i j : nat) (older newer : string)
    (faces_older faces_newer : option (list BackendFace)) :
  i < j ->
  pending (env s) !! i = Some (ReqBackendDetect older) ->
  pending (env s) !! j = Some (ReqBackendDetect newer) ->
  currentFaces (this (settle j (HttpFaces faces_newer) s))
  = map RemoteFace (default [] faces_newer) /\
  currentFaces (this (settle i (HttpFaces faces_older) (settle j (HttpFaces faces_newer) s)))
  = map RemoteFace (default [] faces_older).
Proof.
  intros Hij Hi Hj.
  destruct (settle_backend_faces s j newer faces_newer Hj) as [F P].
  split; [exact F|].
  apply (settle_backend_faces _ i older).
  rewrite P, list_lookup_delete_lt; assumption.
Qed.

Lemma detection_results_in_arrival_order_witness :
  0 < 1 /\
  pending (env two_samples_page) !! 0 = Some (ReqBackendDetect "sample N") /\
  pending (env two_samples_page) !! 1 = Some (ReqBackendDetect "sample N+1") /\
  currentFaces (this (settle 0 (HttpFaces (Some [face_a]))
                        (settle 1 (HttpFaces (Some [face_b])) two_samples_page)))
  = map RemoteFace (default [] (Some [face_a])).
Proof.
  split; [lia|]. split; [reflexivity|]. split; [reflexivity|].
  refine (proj2 (detection_results_in_arrival_order two_samples_page 0 1
                   "sample N" "sample N+1" (Some [face_a]) (Some [face_b]) _ eq_refl eq_refl)).
  lia.
Defined.

(** C5 at its failing input: after [startDetection] ran twice, release
    leaves the session Idle with interval 1 still armed; the interval keeps
    sampling (its next tick posts a frame to the backend), and releasing
    again changes nothing. *)
Lemma release_after_double_start_keeps_sampling :
  timers (env double_start_page) = [1%positive; 2%positive] /\
  detectionInterval (this double_start_page) = Some 2%positive /\
  session_state released_after_double_start = Idle /\
  detectionInterval (this released_after_double_start) = None /\
  timers (env released_after_double_start) = [1%positive] /\
  pending (env released_after_double_start) = [] /\
  pending (env (step released_after_double_start (Tick 1%positive)))
  = [ReqBackendDetect "data:image/jpeg;base64,AA"] /\
  stopCamera released_after_double_start = released_after_double_start.
Proof. repeat split; reflexivity. Qed.

(** C6, as stated, fails: the faces [recognizeAttendance] looks at are the
    ones of the answer that came last, not those of the most recent
    sample.  Samples N and N+1 are with the backend; the answer to N+1
    comes first and shows no face, the answer to N comes after it and
    shows one.  The most recent sample's result is empty, yet a click on
    the recognize button sends a request and shows no warning. *)
Lemma newest_sample_empty_yet_request_sent :
  pending (env two_samples_page)
  = [ReqBackendDetect "sample N"; ReqBackendDetect "sample N+1"] /\
  pending (env (step two_samples_page (Settle 1 (HttpFaces (Some [])))))
  = [ReqBackendDetect "sample N"] /\
  currentFaces (this (step two_samples_page (Settle 1 (HttpFaces (Some []))))) = [] /\
  currentFaces (this late_answer_page) = [RemoteFace face_a] /\
  pending (env late_answer_page) = [] /\
  pending (env (step late_answer_page (Click recognize_attendance)))
  = [ReqRecognize "sample N+1" "识别考勤"] /\
  toasts (env (step late_answer_page (Click recognize_attendance))) = [] /\
  disabled (button recognize_attendance (step late_answer_page (Click recognize_attendance)))
  = true.
Proof. repeat split; reflexivity. Qed.

(** C6, amended: [recognizeAttendance] called while the stored faces (those
    of the answer applied last) are empty only shows a warning: that no
    face was detected when a stream is held, that the camera is to be
    started first when none is.  No request is issued and the button is
    left as it was; a button that was enabled and showed its label, no
    spinner, is enabled and shows its label afterwards. *)
Theorem recognize_without_faces (s : State) :
  currentFaces (this s) = [] ->
  refused_with
    (match stream (this s) with Some _ => "未检测到人脸" | None => "请先启动摄像头" end)
    s (recognizeAttendance s) /\
  pending (env (recognizeAttendance s)) = pending (env s) /\
  button recognize_attendance (recognizeAttendance s) = button recognize_attendance s /\
  (forall label,
     button recognize_attendance s = {| disabled := false; innerHTML := Text label |} ->
     disabled (button recognize_attendance (recognizeAttendance s)) = false /\
     innerHTML (button recognize_attendance (recognizeAttendance s)) = Text label).
Proof.
  intros Hf.
  assert (Hb : button recognize_attendance (recognizeAttendance s)
               = button recognize_attendance s).
  { unfold recognizeAttendance. rewrite Hf. destruct (stream (this s)); reflexivity. }
  split; [|split; [|split]].
  - unfold recognizeAttendance, refused_with. rewrite Hf.
    destruct (stream (this s)); reflexivity.
  - unfold recognizeAttendance. rewrite Hf. destruct (stream (this s)); reflexivity.
  - exact Hb.
  - intros label Hl. rewrite Hb, Hl. split; reflexivity.
Qed.

Lemma recognize_without_faces_witness :
  currentFaces (this detecting_page) = [] /\
  stream (this detecting_page) = Some 1 /\
  refused_with "未检测到人脸" detecting_page (recognizeAttendance detecting_page) /\
  pending (env (recognizeAttendance detecting_page)) = [] /\
  button recognize_attendance (recognizeAttendance detecting_page)
  = {| disabled := false; innerHTML := Text "识别考勤" |}.
Proof.
  split; [reflexivity|]. split; [reflexivity|].
  destruct (recognize_without_faces detecting_page eq_refl) as (Hr & Hp & Hb & _).
  split; [exact Hr|]. split; [rewrite Hp; reflexivity|]. rewrite Hb. reflexivity.
Defined.

(** C7: with no image data or no user chosen, [registerFace] only reports
    the missing input: no request is issued, and neither the controller
    nor the page changes. *)
Theorem register_invalid_input (s : State) :
  face_image_data (dom s) = "" \/ user_id (dom s) = "" ->
  refused_with
    (if truthy (face_image_data (dom s)) then "请选择用户" else "请先拍照或上传人脸照片")
    s (registerFace s) /\
  pending (env (registerFace s)) = pending (env s) /\
  this (registerFace s) = this s /\
  dom (registerFace s) = dom s.
Proof.
  intros H. unfold registerFace, refused_with.
  destruct (truthy (face_image_data (dom s))) eqn:Hi; simpl.
  - destruct H as [H|H]; [rewrite H in Hi; discriminate|].
    rewrite H. repeat split.
  - repeat split.
Qed.

Lemma register_invalid_input_witness :
  (face_image_data (dom (step camera_page (Click capture_photo))) = "" \/
   user_id (dom (step camera_page (Click capture_photo))) = "") /\
  pending (env (registerFace (step camera_page (Click capture_photo))))
  = pending (env (step camera_page (Click capture_photo))).
Proof.
  assert (H : face_image_data (dom (step camera_page (Click capture_photo))) = "" \/
              user_id (dom (step camera_page (Click capture_photo))) = "")
    by (right; reflexivity).
  split; [exact H|].
  exact (proj1 (proj2 (register_invalid_input _ H))).
Defined.

(** C8: when the detection of a sample fails (the local detector throws,
    drawing its result throws, or the backend request is rejected), the
    failure is written to the console, no interval is cleared, and the
    stored faces stay as they were; a sample that succeeds replaces them. *)
Theorem detection_failure_is_absorbed (s : State) (i : nat) (q : Request) (r : Reply) :
  pending (env s) !! i = Some q ->
  (detection_failed q r = true -> absorbed s (settle i r s)) /\
  (forall faces, detection_succeeded q r = Some faces ->
                 currentFaces (this (settle i r s)) = faces).
Proof.
  intros H. unfold settle. rewrite H.
  destruct q, r; simpl; (split; [try discriminate | try discriminate]).
  - (* local detector, result drawn *)
    intros Hd. unfold detectFacesWithFaceAPI_resume.
    match goal with |- context [drawDetections ?ds ?s0] =>
      pose proof (drawDetections_outcome ds s0) as Ho;
      destruct (drawDetections_frame ds s0) as (F1 & F2 & _);
      destruct (drawDetections ds s0) as [s1|s1] end.
    + rewrite Ho in Hd. discriminate.
    + simpl in F1, F2. unfold absorbed. simpl. rewrite F1, F2. repeat split.
  - intros faces Hd. unfold detectFacesWithFaceAPI_resume.
    match goal with |- context [drawDetections ?ds ?s0] =>
      pose proof (drawDetections_outcome ds s0) as Ho;
      destruct (drawDetections ds s0) as [s1|s1] end.
    + rewrite Ho in Hd. injection Hd as <-. reflexivity.
    + rewrite Ho in Hd. discriminate.
  - (* local detector threw *)
    intros _. repeat split.
  - (* backend answered *)
    intros fs [= <-]. reflexivity.
  - (* backend request rejected *)
    intros _. repeat split.
Qed.

Lemma detection_failure_is_absorbed_witness :
  pending (env two_samples_page) !! 1 = Some (ReqBackendDetect "sample N+1") /\
  absorbed two_samples_page (settle 1 (HttpError None) two_samples_page).
Proof.
  split; [reflexivity|].
  exact (proj1 (detection_failure_is_absorbed two_samples_page 1
                  (ReqBackendDetect "sample N+1") (HttpError None) eq_refl) eq_refl).
Defined.

(** C9: inside [renderFaceDataTable] no scope binds [self]; in the click
    handler of a delete button the name resolves to the global object,
    which has no [deleteFaceData], so the handler throws before the call.
    A click on a delete button leaves the state as it was, and along every
    run of page events no delete request is ever in flight. *)
Theorem delete_button_never_reaches_deleteFaceData (s : State) (es : list Event) :
  forallb from_page es = true ->
  in_flight is_delete s = 0 ->
  Js.resolve "self" Js.renderFaceDataTable_scopes = None /\
  Js.resolve "self" Js.renderFaceDataTable_handler_chain = Some Js.VWindow /\
  Js.get Js.VWindow "deleteFaceData" = None /\
  (forall faceId confirmed s0, delete_face_click faceId confirmed s0 = TypeError s0) /\
  (forall n confirmed s0, step s0 (ClickDelete n confirmed) = s0) /\
  in_flight is_delete (run s es) = 0.
Proof.
  intros Hes Hs. repeat split.
  - intros n confirmed s0. simpl. destruct (delete_buttons s0 !! n); reflexivity.
  - apply run_no_delete; assumption.
Qed.

Lemma delete_button_never_reaches_deleteFaceData_witness :
  forallb from_page roster_events = true /\
  in_flight is_delete page0 = 0 /\
  delete_buttons (run page0 roster_events) = ["1"] /\
  in_flight is_delete (run page0 roster_events) = 0.
Proof.
  split; [reflexivity|]. split; [reflexivity|]. split; [reflexivity|].
  pose proof (delete_button_never_reaches_deleteFaceData page0 roster_events
                eq_refl eq_refl) as H.
  exact (proj2 (proj2 (proj2 (proj2 (proj2 H))))).
Defined.

(** C10: when a registration succeeds the stored image data and the
    preview are cleared, so that a [registerFace] call that follows with
    no new photo is refused for want of a photo and sends nothing. *)
Theorem registered_frame_is_consumed
    (s : State) (i : nat) (userId image originalText : string) :
  pending (env s) !! i = Some (ReqRegister userId image originalText) ->
  face_image_data (dom (settle i HttpOk s)) = "" /\
  photo_preview (dom (settle i HttpOk s)) = "" /\
  refused_with "请先拍照或上传人脸照片" (settle i HttpOk s) (registerFace (settle i HttpOk s)) /\
  in_flight is_register (registerFace (settle i HttpOk s))
  = in_flight is_register (settle i HttpOk s).
Proof.
  intros H. unfold settle. rewrite H. repeat split.
Qed.

Lemma registered_frame_is_consumed_witness :
  pending (env registering_page) !! 0
  = Some (ReqRegister "7" "data:image/jpeg;base64,AA" "注册人脸") /\
  face_image_data (dom registering_page) = "data:image/jpeg;base64,AA" /\
  face_image_data (dom (settle 0 HttpOk registering_page)) = "" /\
  in_flight is_register (settle 0 HttpOk registering_page) = 0.
Proof.
  split; [reflexivity|]. split; [reflexivity|].
  split; [|reflexivity].
  exact (proj1 (registered_frame_is_consumed registering_page 0
                  "7" "data:image/jpeg;base64,AA" "注册人脸" eq_refl)).
Defined.

(** * Further properties of the controller *)

(** ** Drawing changes the canvas only *)

Lemma drawDetections_only_canvas ds : forall s,
  exists cv, drawDetections ds s = Normal (set_canvas cv s) \/
             drawDetections ds s = Thrown (set_canvas cv s).
Proof.
  induction ds as [|d ds IH]; intros s; simpl.
  - exists (canvas (dom s)). left. by destruct s as [? [] ?].
  - destruct (maxExpression (det_expressions d)) as [m|].
    + destruct (IH (draw (FillText m (box_x (det_box d)) (box_y (det_box d) - 5))
                      (strokeRect (det_box d) s))) as [cv H].
      exists cv. exact H.
    + eexists. right. reflexivity.
Qed.

Lemma fold_drawFace_only_canvas faces : forall s,
  exists cv, fold_left drawFace faces s = set_canvas cv s.
Proof.
  induction faces as [|f fs IH]; intros s; simpl.
  - exists (canvas (dom s)). by destruct s as [? [] ?].
  - destruct (IH (drawFace s f)) as [cv H]. exists cv. rewrite H.
    unfold drawFace. destruct (face_name f) as [n|]; [destruct (truthy n)|]; reflexivity.
Qed.

Ltac open_draws :=
  repeat match goal with
         | |- context [drawDetections ?ds ?s0] =>
             let cv := fresh "cv" in
             let E := fresh "E" in
             destruct (drawDetections_only_canvas ds s0) as [cv [E|E]]; rewrite E; clear E
         | |- context [fold_left drawFace ?fs ?s0] =>
             let cv := fresh "cv" in
             let E := fresh "E" in
             destruct (fold_drawFace_only_canvas fs s0) as [cv E]; rewrite E; clear E
         end.

(** Unfold one event down to field updates on an explicit state. *)
Ltac open_step :=
  unfold bindEvents, init, loadModels, startCamera, stopCamera, startDetection, stopDetection,
    capturePhoto, registerFace, recognizeAttendance, handleImageUpload, tick, detectFaces,
    detectFacesWithFaceAPI, detectFacesWithBackend; simpl.

Ltac open_settle :=
  unfold loadModels_then, loadModels_catch, initBackendAPI, startCamera_then, startCamera_catch,
    detectFacesWithFaceAPI_resume, detectFacesWithBackend_then, detectFacesWithBackend_catch,
    registerFace_then, registerFace_catch, registerFace_finally,
    recognizeAttendance_then, recognizeAttendance_catch, recognizeAttendance_finally, playSound,
    loadFaceData_then, loadFaceData_catch, renderFaceDataTable, deleteFaceData_then,
    deleteFaceData_catch, handleImageUpload_onload, handleImageUpload_img_onload, loadFaceData;
  simpl.

(** ** The page mirrors the controller, whatever happens *)

Lemma step_mirrors (s : State) (e : Event) : mirrors s -> mirrors (step s e).
Proof.
  unfold mirrors. intros H. destruct e; simpl.
  - destruct_state s. simpl in *. exact H.
  - destruct (disabled (button b s)); [exact H|].
    destruct_state s; destruct b; open_step; simpl in *; split_conditions;
      simpl in *; intuition (try congruence).
  - destruct (delete_buttons s !! n); exact H.
  - destruct_state s. open_step. split_conditions; simpl in *; exact H.
  - destruct_state s. exact H.
  - destruct_state s. exact H.
  - destruct_state s. open_step. split_conditions; simpl in *; exact H.
  - unfold settle. destruct (pending (env s) !! i) as [q|]; [|exact H].
    destruct_state s. simpl in *.
    destruct q, r; try exact H; open_settle; open_draws; simpl; split_conditions;
      simpl in *; intuition (try congruence).
  - destruct_state s; destruct b; open_step; simpl in *; split_conditions;
      simpl in *; intuition (try congruence).
Qed.

Lemma run_mirrors (es : list Event) : forall s, mirrors s -> mirrors (run s es).
Proof.
  induction es as [|e es IH]; intros s H; simpl; [exact H|].
  apply IH, step_mirrors, H.
Qed.

(** ** Interval bookkeeping *)

Lemma filter_ne_self (t : TimerId) : filter (fun u => u <> t) [t] = [].
Proof. rewrite filter_cons, filter_nil. destruct (decide (t <> t)); [congruence|done]. Qed.

Ltac use_tracked H :=
  match type of H with
  | match ?d with Some _ => _ | None => _ end =>
      destruct d; [destruct H as (-> & -> & ? & ?) | destruct H as (-> & ->)]
  end.

Lemma step_tracked (s : State) (e : Event) :
  from_page e = true -> tracked s -> tracked (step s e).
Proof.
  unfold tracked. intros He H. destruct e; try discriminate; simpl.
  - destruct_state s. simpl in *. exact H.
  - destruct (disabled (button b s)) eqn:Hd; [exact H|].
    destruct_state s. simpl in H. use_tracked H;
      destruct b; open_step; cbn -[filter] in *; split_conditions;
      cbn -[filter] in *; rewrite ?filter_ne_self;
      try solve [intuition (try congruence; try discriminate)].
  - destruct (delete_buttons s !! n); exact H.
  - unfold handleImageUpload. destruct f as [f|]; [|exact H].
    destruct (negb _); [exact H|]. destruct (_ <? _)%N; exact H.
  - destruct_state s. exact H.
  - destruct_state s. exact H.
  - unfold tick, detectFaces. destruct (bool_decide _); [|exact H].
    destruct (faceDetectionModel _); exact H.
  - unfold settle. destruct (pending (env s) !! i) as [q|]; [|exact H].
    destruct_state s. simpl in H. use_tracked H;
    destruct q, r; open_settle; open_draws; simpl; split_conditions;
      simpl in *; intuition (try congruence; try discriminate).
Qed.

Lemma run_tracked (es : list Event) : forall s,
  forallb from_page es = true -> tracked s -> tracked (run s es).
Proof.
  induction es as [|e es IH]; intros s Hes Hs; simpl; [done|].
  simpl in Hes. apply andb_prop in Hes as [He Hes].
  apply IH; [done|]. by apply step_tracked.
Qed.

Lemma bindEvents_retired (t : TimerId) (b : ButtonId) (s : State) :
  retired t s -> retired t (bindEvents b s).
Proof.
  unfold retired. intros [Hlt Hin]. destruct_state s. cbn in Hlt, Hin.
  destruct b; open_step; cbn -[filter]; split_conditions; cbn -[filter];
    rewrite ?list_elem_of_filter, ?elem_of_app, ?list_elem_of_singleton;
    try solve [intuition lia].
Qed.

Lemma settle_timers (i : nat) (r : Reply) (s : State) :
  timers (env (settle i r s)) = timers (env s) /\
  nextTimer (env (settle i r s)) = nextTimer (env s) /\
  detectionInterval (this (settle i r s)) = detectionInterval (this s).
Proof.
  unfold settle. destruct (pending (env s) !! i) as [q|]; [|done].
  destruct_state s.
  destruct q, r; try done; open_settle; open_draws; simpl; split_conditions; done.
Qed.

Lemma step_retired (t : TimerId) (s : State) (e : Event) :
  retired t s -> retired t (step s e).
Proof.
  intros H. destruct e; simpl.
  - exact H.
  - destruct (disabled (button b s)); [exact H|]. by apply bindEvents_retired.
  - destruct (delete_buttons s !! n); exact H.
  - unfold handleImageUpload. destruct f as [f|]; [|exact H].
    destruct (negb _); [exact H|]. destruct (_ <? _)%N; exact H.
  - exact H.
  - exact H.
  - unfold tick, detectFaces. destruct (bool_decide _); [|exact H].
    destruct (faceDetectionModel _); exact H.
  - unfold retired. destruct (settle_timers i r s) as (-> & -> & _). exact H.
  - by apply bindEvents_retired.
Qed.

Lemma run_retired (t : TimerId) (es : list Event) : forall s,
  retired t s -> retired t (run s es).
Proof.
  induction es as [|e es IH]; intros s H; simpl; [exact H|].
  apply IH, step_retired, H.
Qed.

Lemma bindEvents_fresh (b : ButtonId) (s : State) : fresh s -> fresh (bindEvents b s).
Proof.
  unfold fresh. intros [Ha Hr]. destruct_state s. cbn in Ha, Hr.
  assert (Hs : Forall (fun t => (t < Pos.succ nt)%positive) (tm ++ [nt])).
  { apply Forall_app. split; [|by repeat constructor; lia].
    eapply Forall_impl; [exact Ha|]. simpl. lia. }
  assert (Hf : forall t, Forall (fun t => (t < nt)%positive) (filter (fun u => u <> t) tm)).
  { intros t. apply Forall_forall. intros x [_ Hx]%list_elem_of_filter.
    eapply Forall_forall in Ha; eauto. }
  destruct b; open_step; cbn -[filter]; split_conditions; cbn -[filter];
    try solve [split; [first [exact Ha | exact Hs | apply Hf] |
                       intros ? ?; first [discriminate | simplify_eq; lia | by apply Hr]]].
Qed.

Lemma step_fresh (s : State) (e : Event) : fresh s -> fresh (step s e).
Proof.
  intros H. destruct e; simpl.
  - exact H.
  - destruct (disabled (button b s)); [exact H|]. by apply bindEvents_fresh.
  - destruct (delete_buttons s !! n); exact H.
  - unfold handleImageUpload. destruct f as [f|]; [|exact H].
    destruct (negb _); [exact H|]. destruct (_ <? _)%N; exact H.
  - exact H.
  - exact H.
  - unfold tick, detectFaces. destruct (bool_decide _); [|exact H].
    destruct (faceDetectionModel _); exact H.
  - unfold fresh. destruct (settle_timers i r s) as (-> & -> & ->). exact H.
  - by apply bindEvents_fresh.
Qed.

Lemma run_fresh (es : list Event) : forall s, fresh s -> fresh (run s es).
Proof.
  induction es as [|e es IH]; intros s H; simpl; [exact H|].
  apply IH, step_fresh, H.
Qed.

(** ** Strings *)

Lemma string_length_app (a b : string) :
  String.length (a +:+ b) = String.length a + String.length b.
Proof. induction a as [|c a IH]; simpl; [done|]. by rewrite IH. Qed.

Lemma string_app_inv (a1 a2 b1 b2 : string) :
  String.length a1 = String.length a2 -> a1 +:+ b1 = a2 +:+ b2 -> a1 = a2 /\ b1 = b2.
Proof.
  revert a2. induction a1 as [|c a1 IH]; intros [|c2 a2] Hl H; simpl in *; try done.
  injection H as -> H. destruct (IH a2) as [-> ->]; [lia|done|done].
Qed.

Lemma prefix_spec (p s : string) : String.prefix p s = true <-> exists b, s = p +:+ b.
Proof.
  revert p. induction s as [|c' s IH]; intros [|c p]; simpl.
  - split; [intros _; by exists "" | reflexivity].
  - split; [discriminate | intros [b H]; discriminate].
  - split; [intros _; by eexists | reflexivity].
  - destruct (Ascii.ascii_dec c c') as [->|Hne].
    + rewrite IH. split; intros [b H]; exists b; [by rewrite H | by injection H].
    + split; [discriminate|]. intros [b H]. injection H as -> _. done.
Qed.

Lemma contains_spec (p s : string) : contains p s = true <-> occurs_in p s.
Proof.
  unfold occurs_in. induction s as [|c s IH]; cbn [contains].
  - rewrite orb_false_r, prefix_spec. split.
    + intros [b H]. exists "", b. exact H.
    + intros ([|c a] & b & H); [by exists b|done].
  - rewrite orb_true_iff, prefix_spec, IH. split.
    + intros [[b H]|(a & b & H)]; [by exists "", b|].
      exists (String c a), b. simpl. by rewrite H.
    + intros ([|c' a] & b & H); [left; by exists b|].
      right. simpl in H. injection H as -> H. by exists a, b.
Qed.

(** ** Decimal renderings *)

Lemma two_digits_length (n : nat) : n < 100 -> String.length (two_digits n) = 2.
Proof.
  intros H.
  assert (A : forallb (fun k => Nat.eqb (String.length (two_digits k)) 2) (seq 0 100) = true)
    by (vm_compute; reflexivity).
  rewrite forallb_forall in A. apply Nat.eqb_eq, A, in_seq. lia.
Qed.

Lemma two_digits_inj (n m : nat) : n < 100 -> m < 100 -> two_digits n = two_digits m -> n = m.
Proof.
  intros Hn Hm H.
  assert (A : forallb (fun a => forallb (fun b =>
                implb (String.eqb (two_digits a) (two_digits b)) (Nat.eqb a b))
                (seq 0 100)) (seq 0 100) = true) by (vm_compute; reflexivity).
  rewrite forallb_forall in A. specialize (A n). rewrite forallb_forall in A.
  specialize (A ltac:(apply in_seq; lia) m ltac:(apply in_seq; lia)).
  rewrite H, String.eqb_refl in A. simpl in A. by apply Nat.eqb_eq.
Qed.

Lemma year_length (y : Z) : (1000 <= y <= 9999)%Z -> String.length (pretty y) = 4.
Proof.
  intros H.
  assert (A : forallb (fun k : Z => Nat.eqb (String.length (pretty k)) 4)
                (seqZ 1000 9000) = true) by (vm_compute; reflexivity).
  rewrite forallb_forall in A. apply Nat.eqb_eq, A, list_elem_of_In, elem_of_seqZ. lia.
Qed.

(** ** The properties *)


(** X1. [stopCamera] twice is [stopCamera] once, and in every state it
    leaves no stream held: the session is Idle. *)
Theorem release_twice_is_release_once (s : State) :
  stopCamera (stopCamera s) = stopCamera s /\
  stream (this (stopCamera s)) = None /\
  session_state (stopCamera s) = Idle.
Proof.
  split; [apply stopCamera_idempotent | apply stopCamera_clears_handle].
Qed.

(** X2. With a stream held, [stopCamera] stops that stream's tracks,
    detaches it from the video, cancels the registered interval (its tick
    no longer does anything), clears the overlay and resets the four
    camera and detection buttons and both status lines. *)
Theorem release_stops_what_is_registered (s : State) (h : StreamId) :
  stream (this s) = Some h ->
  (h ∉ liveStreams (env (stopCamera s))) /\
  video_srcObject (dom (stopCamera s)) = None /\
  isDetecting (this (stopCamera s)) = false /\
  detectionInterval (this (stopCamera s)) = None /\
  (forall t, detectionInterval (this s) = Some t ->
             (t ∉ timers (env (stopCamera s))) /\
             step (stopCamera s) (Tick t) = stopCamera s) /\
  canvas (dom (stopCamera s)) = [] /\
  disabled (button start_camera (stopCamera s)) = false /\
  disabled (button stop_camera (stopCamera s)) = true /\
  disabled (button start_detection (stopCamera s)) = false /\
  disabled (button stop_detection (stopCamera s)) = true /\
  txt_camera_status (texts (dom (stopCamera s))) = "摄像头已停止" /\
  txt_detection_status (texts (dom (stopCamera s))) = "检测已停止".
Proof.
  intros Hs. destruct (stopCamera_stops_registered s h Hs) as (H1 & H2 & H3 & H4).
  split; [exact H1|]. 
  assert (F : video_srcObject (dom (stopCamera s)) = None /\
              canvas (dom (stopCamera s)) = [] /\
              disabled (button start_camera (stopCamera s)) = false /\
              disabled (button stop_camera (stopCamera s)) = true /\
              disabled (button start_detection (stopCamera s)) = false /\
              disabled (button stop_detection (stopCamera s)) = true /\
              txt_camera_status (texts (dom (stopCamera s))) = "摄像头已停止" /\
              txt_detection_status (texts (dom (stopCamera s))) = "检测已停止").
  { unfold stopCamera. rewrite Hs. destruct_state s. cbn -[filter].
    destruct di; cbn -[filter]; repeat split. }
  destruct F as (F1 & F2 & F3).
  repeat split; try assumption; try tauto.
  - by apply H4.
  - simpl. unfold tick. rewrite bool_decide_eq_false_2; [done|]. by apply H4.
Qed.

Lemma release_stops_what_is_registered_witness :
  stream (this detecting_page) = Some 1 /\
  detectionInterval (this detecting_page) = Some 1%positive /\
  (1%positive ∉ timers (env (stopCamera detecting_page))).
Proof.
  split; [reflexivity|]. split; [reflexivity|].
  exact (proj1 (proj1 (proj2 (proj2 (proj2 (proj2
    (release_stops_what_is_registered detecting_page 1 eq_refl))))) 1%positive eq_refl)).
Defined.

(** X3. Whatever events arrive, in whatever order, direct calls included,
    the video element shows the held stream, the start/stop camera buttons
    are disabled exactly when a stream is / is not held, and the
    start/stop detection buttons exactly when detection is / is not
    marked as running. *)
Theorem page_mirrors_controller (s : State) (es : list Event) :
  mirrors s -> mirrors (run s es).
Proof. apply run_mirrors. Qed.

Lemma page_mirrors_controller_witness :
  mirrors page0 /\
  mirrors (run page0 [Call start_detection; Click start_camera; Call start_camera;
                      Settle 1 (CameraGranted 2); Call start_detection;
                      Settle 0 (CameraGranted 1); Call stop_camera; Call stop_detection]).
Proof.
  assert (H : mirrors page0) by (repeat split).
  split; [exact H|]. exact (page_mirrors_controller page0 _ H).
Defined.

(** X4. Along every run of page events, at most one interval is armed: it
    is the one in [detectionInterval], a stream is held while it is
    armed, and detection is marked as running exactly then. *)
Theorem page_events_arm_one_interval (s : State) (es : list Event) :
  forallb from_page es = true ->
  tracked s ->
  tracked (run s es) /\
  length (timers (env (run s es))) <= 1 /\
  (forall t, t ∈ timers (env (run s es)) ->
             detectionInterval (this (run s es)) = Some t /\
             isDetecting (this (run s es)) = true /\
             stream (this (run s es)) <> None).
Proof.
  intros Hes Hs. pose proof (run_tracked es s Hes Hs) as H.
  split; [exact H|]. unfold tracked in H.
  destruct (detectionInterval (this (run s es))) as [t0|].
  - destruct H as (-> & H2 & H3 & _). split; [simpl; lia|].
    intros t Ht. apply list_elem_of_singleton in Ht as ->. done.
  - destruct H as (-> & _). split; [simpl; lia|]. intros t Ht. inversion Ht.
Qed.

Lemma page_events_arm_one_interval_witness :
  forallb from_page recognize_events = true /\
  tracked page0 /\
  timers (env (run page0 recognize_events)) = [1%positive] /\
  tracked (run page0 recognize_events).
Proof.
  split; [reflexivity|]. split; [split; reflexivity|]. split; [reflexivity|].
  exact (proj1 (page_events_arm_one_interval page0 recognize_events eq_refl
                  (conj eq_refl eq_refl))).
Defined.

Lemma filter_out_new (tm : list TimerId) (nt : TimerId) :
  Forall (fun t => (t < nt)%positive) tm ->
  filter (fun u => u <> nt) (tm ++ [nt]) = tm.
Proof.
  intros H. rewrite filter_app, filter_ne_self, app_nil_r.
  induction H as [|t tm Ht _ IH]; [reflexivity|].
  rewrite filter_cons, IH. case_decide as N; [reflexivity|]. lia.
Qed.

(** X5. With a stream held and interval handles fresh, [startDetection]
    followed by [stopDetection] leaves exactly the intervals armed that
    were armed before: the interval just started is the one cancelled. *)
Theorem start_then_stop_arms_nothing (s : State) :
  fresh s ->
  stream (this s) <> None ->
  timers (env (startDetection s)) = timers (env s) ++ [nextTimer (env s)] /\
  detectionInterval (this (startDetection s)) = Some (nextTimer (env s)) /\
  timers (env (stopDetection (startDetection s))) = timers (env s) /\
  detectionInterval (this (stopDetection (startDetection s))) = None /\
  isDetecting (this (stopDetection (startDetection s))) = false.
Proof.
  intros [Hf _] Hs. unfold startDetection.
  destruct (stream (this s)) as [h|] eqn:E; [clear Hs|done].
  destruct_state s. cbn -[filter] in *.
  rewrite filter_out_new by exact Hf. repeat split.
Qed.

Lemma start_then_stop_arms_nothing_witness :
  fresh camera_page /\
  stream (this camera_page) <> None /\
  timers (env (stopDetection (startDetection camera_page))) = timers (env camera_page).
Proof.
  assert (F : fresh camera_page)
    by (split; [vm_compute; constructor | intros t; vm_compute; discriminate]).
  assert (S : stream (this camera_page) <> None) by (vm_compute; discriminate).
  split; [exact F|]. split; [exact S|].
  exact (proj1 (proj2 (proj2 (start_then_stop_arms_nothing camera_page F S)))).
Defined.

(** X6. Once [stopDetection] (or [stopCamera], with a stream held) has
    cancelled the registered interval, that interval is never armed again,
    whatever events and calls follow: its ticks do nothing. *)
Theorem stopped_interval_never_fires (s : State) (t : TimerId) (es : list Event) :
  fresh s ->
  detectionInterval (this s) = Some t ->
  (t ∉ timers (env (run (stopDetection s) es))) /\
  step (run (stopDetection s) es) (Tick t) = run (stopDetection s) es /\
  (stream (this s) <> None ->
   (t ∉ timers (env (run (stopCamera s) es))) /\
   step (run (stopCamera s) es) (Tick t) = run (stopCamera s) es).
Proof.
  intros [Hf Hr] Ht. specialize (Hr t Ht).
  assert (R1 : retired t (stopDetection s)).
  { destruct_state s. cbn -[filter] in *. subst di. split; [exact Hr|].
    cbn -[filter]. rewrite list_elem_of_filter. tauto. }
  assert (R2 : stream (this s) <> None -> retired t (stopCamera s)).
  { intros Hs. unfold stopCamera. destruct (stream (this s)); [|done].
    destruct_state s. cbn -[filter] in *. subst di. split; [exact Hr|].
    cbn -[filter]. rewrite list_elem_of_filter. tauto. }
  assert (T : forall s0, retired t s0 -> (t ∉ timers (env s0)) /\ step s0 (Tick t) = s0).
  { intros s0 [_ Hn]. split; [exact Hn|]. simpl. unfold tick.
    rewrite bool_decide_eq_false_2; done. }
  destruct (T _ (run_retired t es _ R1)) as [A B].
  split; [exact A|]. split; [exact B|].
  intros Hs. apply T, run_retired, R2, Hs.
Qed.

Lemma stopped_interval_never_fires_witness :
  fresh detecting_page /\
  detectionInterval (this detecting_page) = Some 1%positive /\
  (1%positive ∉ timers (env (run (stopDetection detecting_page)
                               [Call start_detection; Call start_detection]))).
Proof.
  assert (F : fresh detecting_page).
  { split; [vm_compute; repeat constructor | intros t; vm_compute; intros [= <-]; reflexivity]. }
  split; [exact F|]. split; [reflexivity|].
  exact (proj1 (stopped_interval_never_fires detecting_page 1%positive
                  [Call start_detection; Call start_detection] F eq_refl)).
Defined.

Lemma bindEvents_model (b : ButtonId) (s : State) :
  faceDetectionModel (this (bindEvents b s)) = faceDetectionModel (this s).
Proof. destruct_state s. destruct b; open_step; split_conditions; reflexivity. Qed.

Lemma settle_model (i : nat) (r : Reply) (s : State) :
  faceDetectionModel (this s) = true -> faceDetectionModel (this (settle i r s)) = true.
Proof.
  intros H. unfold settle. destruct (pending (env s) !! i) as [q|]; [|done].
  destruct_state s. simpl in H.
  destruct q, r; try done; open_settle; open_draws; simpl; split_conditions; done.
Qed.

Lemma step_model (s : State) (e : Event) :
  faceDetectionModel (this s) = true -> faceDetectionModel (this (step s e)) = true.
Proof.
  intros H. destruct e; simpl.
  - exact H.
  - destruct (disabled (button b s)); [exact H|]. by rewrite bindEvents_model.
  - destruct (delete_buttons s !! n); exact H.
  - unfold handleImageUpload. destruct f as [f|]; [|exact H].
    destruct (negb _); [exact H|]. destruct (_ <? _)%N; exact H.
  - exact H.
  - exact H.
  - unfold tick, detectFaces. destruct (bool_decide _); [|exact H].
    rewrite H. exact H.
  - by apply settle_model.
  - by rewrite bindEvents_model.
Qed.

(** X7. Once the local models are loaded the controller never goes back
    to the backend detector: whatever events and calls follow (failed
    detections included), every tick of an armed interval starts a local
    detection. *)
Theorem local_detector_is_kept (s : State) (es : list Event) :
  faceDetectionModel (this s) = true ->
  faceDetectionModel (this (run s es)) = true /\
  (forall t, t ∈ timers (env (run s es)) ->
             step (run s es) (Tick t) = issue ReqLocalDetect (run s es)).
Proof.
  intros H.
  assert (M : faceDetectionModel (this (run s es)) = true).
  { revert s H. induction es as [|e es IH]; intros s H; simpl; [exact H|].
    apply IH, step_model, H. }
  split; [exact M|]. intros t Ht. simpl. unfold tick, detectFaces.
  rewrite bool_decide_eq_true_2 by exact Ht. rewrite M. reflexivity.
Qed.

Lemma local_detector_is_kept_witness :
  faceDetectionModel (this models_page) = true /\
  faceDetectionModel (this (run models_page failing_detector_events)) = true.
Proof.
  split; [reflexivity|].
  exact (proj1 (local_detector_is_kept models_page failing_detector_events eq_refl)).
Defined.

Lemma delete_just_issued {A} (l : list A) (x : A) : delete (length l) (l ++ [x]) = l.
Proof. by rewrite (delete_middle l [] x), app_nil_r. Qed.

Ltac settle_issued :=
  unfold settle; cbn -[lookup delete];
  rewrite lookup_just_issued, ?delete_just_issued; cbn -[lookup delete].

(** X8. A recognition from the call to the completion: the call sends the
    current frame, disables the button and shows the spinner without any
    toast; when the request settles, with a response or a rejection, the
    pending list is as before the call, the button is enabled with the
    text it had, exactly one toast has been added, and the controller's
    own fields are untouched. *)
Theorem recognize_round_trip (s : State) (r : Reply) :
  stream (this s) <> None ->
  currentFaces (this s) <> [] ->
  is_recognize_reply r = true ->
  pending (env (recognizeAttendance s))
  = pending (env s) ++ [ReqRecognize (videoFrame (env s))
                          (textContent (innerHTML (button recognize_attendance s)))] /\
  button recognize_attendance (recognizeAttendance s)
  = {| disabled := true; innerHTML := Spinner "识别中..." |} /\
  toasts (env (recognizeAttendance s)) = toasts (env s) /\
  pending (env (recognize_and_settle r s)) = pending (env s) /\
  button recognize_attendance (recognize_and_settle r s)
  = {| disabled := false;
       innerHTML := Text (textContent (innerHTML (button recognize_attendance s))) |} /\
  length (toasts (env (recognize_and_settle r s))) = S (length (toasts (env s))) /\
  this (recognize_and_settle r s) = this s.
Proof.
  intros Hs Hf Hr. unfold recognize_and_settle, recognizeAttendance.
  destruct_state s. simpl in Hs, Hf.
  destruct st as [h|]; [clear Hs|done]. destruct cf as [|c cf]; [done|clear Hf].
  cbn -[lookup delete]. settle_issued.
  destruct r; try discriminate; unfold recognizeAttendance_then; simpl.
  - destruct (res_success r); simpl; rewrite length_app; simpl; repeat split; lia.
  - rewrite length_app; simpl; repeat split; lia.
Qed.

Lemma recognize_round_trip_witness :
  stream (this face_page) <> None /\
  currentFaces (this face_page) <> [] /\
  pending (env (recognize_and_settle (HttpError None) face_page)) = pending (env face_page).
Proof.
  assert (A : stream (this face_page) <> None) by (vm_compute; discriminate).
  assert (B : currentFaces (this face_page) <> []) by (vm_compute; discriminate).
  split; [exact A|]. split; [exact B|].
  exact (proj1 (proj2 (proj2 (proj2
    (recognize_round_trip face_page (HttpError None) A B eq_refl))))).
Defined.

(** X9. A registration from the call to the completion.  On success the
    stored photo and the preview are emptied and exactly one reload of the
    face data is requested; on failure the photo and the preview stay as
    they are and nothing is requested, so the same photo can be sent
    again.  Either way one toast is added and the button is enabled with
    the text it had. *)
Theorem register_round_trip (s : State) (detail : option string) :
  truthy (face_image_data (dom s)) = true ->
  truthy (user_id (dom s)) = true ->
  (pending (env (register_and_settle HttpOk s)) = pending (env s) ++ [ReqLoadFaceData] /\
   face_image_data (dom (register_and_settle HttpOk s)) = "" /\
   photo_preview (dom (register_and_settle HttpOk s)) = "" /\
   toasts (env (register_and_settle HttpOk s))
   = toasts (env s) ++ [("人脸注册成功", "success")]) /\
  (pending (env (register_and_settle (HttpError detail) s)) = pending (env s) /\
   face_image_data (dom (register_and_settle (HttpError detail) s))
   = face_image_data (dom s) /\
   photo_preview (dom (register_and_settle (HttpError detail) s)) = photo_preview (dom s) /\
   toasts (env (register_and_settle (HttpError detail) s))
   = toasts (env s) ++ [(or_else detail "人脸注册失败", "danger")] /\
   pending (env (registerFace (register_and_settle (HttpError detail) s)))
   = pending (env s) ++ [ReqRegister (user_id (dom s)) (face_image_data (dom s))
                           (textContent (innerHTML (button register_face s)))]) /\
  (forall r, r = HttpOk \/ r = HttpError detail ->
     button register_face (register_and_settle r s)
     = {| disabled := false;
          innerHTML := Text (textContent (innerHTML (button register_face s))) |} /\
     this (register_and_settle r s) = this s).
Proof.
  intros Hi Hu. unfold register_and_settle, registerFace.
  destruct_state s. simpl in Hi, Hu. cbn -[lookup delete]. rewrite Hi, Hu.
  cbn -[lookup delete]. split; [|split].
  - settle_issued. repeat split.
  - settle_issued. unfold registerFace. simpl. rewrite Hi, Hu. repeat split.
  - intros r [->| ->]; settle_issued; repeat split.
Qed.

Lemma register_round_trip_witness :
  truthy (face_image_data (dom photo_page)) = true /\
  truthy (user_id (dom photo_page)) = true /\
  face_image_data (dom (register_and_settle (HttpError None) photo_page))
  = face_image_data (dom photo_page).
Proof.
  split; [reflexivity|]. split; [reflexivity|].
  exact (proj1 (proj2 (proj1 (proj2
    (register_round_trip photo_page None eq_refl eq_refl))))).
Defined.

(** X10. With a stream held and a user chosen, [capturePhoto] followed by
    [registerFace] sends exactly the frame the video showed at the capture,
    with the chosen user: the preview, the hidden field and the request
    carry the same image. *)
Theorem capture_then_register_sends_the_frame (s : State) :
  stream (this s) <> None ->
  truthy (videoFrame (env s)) = true ->
  truthy (user_id (dom s)) = true ->
  photo_preview (dom (capturePhoto s)) = videoFrame (env s) /\
  face_image_data (dom (capturePhoto s)) = videoFrame (env s) /\
  pending (env (registerFace (capturePhoto s)))
  = pending (env s) ++ [ReqRegister (user_id (dom s)) (videoFrame (env s))
                          (textContent (innerHTML (button register_face s)))].
Proof.
  intros Hs Hv Hu. unfold capturePhoto, registerFace.
  destruct_state s. simpl in Hs, Hv, Hu.
  destruct st as [h|]; [clear Hs|done].
  destruct vf as [|c vf]; [discriminate|]. destruct uid as [|c' uid]; [discriminate|].
  repeat split.
Qed.

Lemma capture_then_register_sends_the_frame_witness :
  stream (this camera_page) <> None /\
  truthy (videoFrame (env (set_user_id "7" camera_page))) = true /\
  truthy (user_id (dom (set_user_id "7" camera_page))) = true /\
  face_image_data (dom (capturePhoto (set_user_id "7" camera_page)))
  = videoFrame (env (set_user_id "7" camera_page)).
Proof.
  assert (A : stream (this (set_user_id "7" camera_page)) <> None)
    by (vm_compute; discriminate).
  split; [exact A|]. split; [reflexivity|]. split; [reflexivity|].
  exact (proj1 (proj2 (capture_then_register_sends_the_frame
                         (set_user_id "7" camera_page) A eq_refl eq_refl))).
Defined.


(** X11. A chosen file is read exactly when its type contains "image" and
    its size is at most 5 MiB (5242880 bytes, the bound included);
    otherwise the upload is refused with a warning and nothing is read.
    Once an accepted file has loaded, the preview and the hidden field
    hold its data URL. *)
Theorem upload_reads_images_up_to_5MiB (f : File) (s : State) :
  (occurs_in "image" (file_type f) /\ (file_size f <= 5242880)%N ->
   handleImageUpload (Some f) s = issue (ReqReadFile f) s /\
   face_image_data (dom (upload_and_load f s)) = file_dataURL f /\
   photo_preview (dom (upload_and_load f s)) = file_dataURL f) /\
  (~ (occurs_in "image" (file_type f) /\ (file_size f <= 5242880)%N) ->
   exists m, refused_with m s (handleImageUpload (Some f) s)).
Proof.
  unfold upload_and_load, handleImageUpload, refused_with.
  rewrite <- contains_spec.
  destruct (contains "image" (file_type f)); simpl.
  - destruct (N.ltb_spec (5 * 1024 * 1024) (file_size f)) as [Hlt|Hle]; split.
    + intros [_ H]. lia.
    + intros _. eauto.
    + intros _. split; [reflexivity|]. destruct_state s. settle_issued. split; reflexivity.
    + intros H. exfalso. apply H. split; [reflexivity|lia].
  - split; [intros [H _]; discriminate | intros _; eauto].
Qed.

Lemma upload_reads_images_up_to_5MiB_witness :
  (occurs_in "image" (file_type png) /\ (file_size png <= 5242880)%N) /\
  face_image_data (dom (upload_and_load png page0)) = file_dataURL png.
Proof.
  assert (H : occurs_in "image" (file_type png) /\ (file_size png <= 5242880)%N).
  { split; [by exists "", "/png" | vm_compute; discriminate]. }
  split; [exact H|].
  exact (proj1 (proj2 (proj1 (upload_reads_images_up_to_5MiB png page0) H))).
Defined.

Lemma fold_left_max (es : list (string * Z)) : forall e,
  fold_left (fun a b => if (snd a >? snd b)%Z then a else b) es e ∈ e :: es /\
  forall x, x ∈ e :: es ->
            (snd x <= snd (fold_left (fun a b => if (snd a >? snd b)%Z then a else b) es e))%Z.
Proof.
  induction es as [|b es IH]; intros e; simpl.
  - split; [left|]. intros x Hx. apply list_elem_of_singleton in Hx as ->. lia.
  - destruct (IH (if (snd e >? snd b)%Z then e else b)) as [Hin Hmax]. split.
    + apply elem_of_cons in Hin as [->|Hin].
      * destruct (snd e >? snd b)%Z; [left | right; left].
      * right. right. exact Hin.
    + intros x Hx. apply elem_of_cons in Hx as [->|Hx].
      * etrans; [|apply Hmax; left]. destruct (Z.gtb_spec (snd e) (snd b)); lia.
      * apply elem_of_cons in Hx as [->|Hx].
        -- etrans; [|apply Hmax; left]. destruct (Z.gtb_spec (snd e) (snd b)); lia.
        -- apply Hmax. right. exact Hx.
Qed.

(** X12. The expression written next to a locally detected face is one of
    the face's expressions, and no expression of that face has a higher
    score; there is none to write exactly when the face has no expression. *)
Theorem maxExpression_is_maximal (ex : list (string * Z)) :
  (maxExpression ex = None <-> ex = []) /\
  (forall m, maxExpression ex = Some m ->
             exists v, (m, v) ∈ ex /\ forall k w, (k, w) ∈ ex -> (w <= v)%Z).
Proof.
  destruct ex as [|e es]; simpl.
  - split; [done|]. intros m H. discriminate.
  - split; [split; discriminate|]. intros m [= <-].
    destruct (fold_left_max es e) as [Hin Hmax].
    set (r := fold_left _ es e) in *. exists (snd r). split.
    + by destruct r.
    + intros k w Hk. apply (Hmax (k, w) Hk).
Qed.

Lemma fold_drawFace_canvas (faces : list BackendFace) : forall s,
  fold_left drawFace faces s = set_canvas (canvas (dom s) ++ flat_map face_draws faces) s.
Proof.
  induction faces as [|f fs IH]; intros s; simpl.
  - rewrite app_nil_r. by destruct s as [? [] ?].
  - rewrite IH. unfold drawFace, face_draws, strokeRect, draw.
    destruct (face_name f) as [n|]; [destruct (truthy n)|]; simpl;
      rewrite <- ?app_assoc; reflexivity.
Qed.

(** X13. When a backend detection response arrives, the canvas holds the
    frame the video shows at that moment, then for each returned face, in
    order, its box and (if it has a non-empty name) its name 5 pixels
    above; the stored faces are the returned ones and the counter shows
    how many there are.  A response without a face list counts as none. *)
Theorem backend_response_overlay (s : State) (i : nat) (image : string)
    (faces : option (list BackendFace)) :
  pending (env s) !! i = Some (ReqBackendDetect image) ->
  canvas (dom (settle i (HttpFaces faces) s))
  = DrawVideo (videoFrame (env s)) :: flat_map face_draws (default [] faces) /\
  currentFaces (this (settle i (HttpFaces faces) s)) = map RemoteFace (default [] faces) /\
  txt_face_count (texts (dom (settle i (HttpFaces faces) s)))
  = pretty (length (default [] faces)).
Proof.
  intros H. unfold settle. rewrite H. unfold detectFacesWithBackend_then.
  cbn -[fold_left]. rewrite fold_drawFace_canvas. repeat split.
Qed.

Lemma backend_response_overlay_witness :
  pending (env two_samples_page) !! 0 = Some (ReqBackendDetect "sample N") /\
  canvas (dom (settle 0 (HttpFaces (Some [face_a; face_b])) two_samples_page))
  = DrawVideo (videoFrame (env two_samples_page)) :: flat_map face_draws [face_a; face_b].
Proof.
  split; [reflexivity|].
  exact (proj1 (backend_response_overlay two_samples_page 0 "sample N"
                  (Some [face_a; face_b]) eq_refl)).
Defined.

Lemma drawDetections_canvas (ds : list Detection) : forall s,
  all_drawable ds = true ->
  drawDetections ds s
  = Normal (set_canvas (canvas (dom s) ++ flat_map detection_draws ds) s).
Proof.
  induction ds as [|d ds IH]; intros s H; simpl in *.
  - rewrite app_nil_r. by destruct s as [? [] ?].
  - unfold detection_draws at 1.
    destruct (det_expressions d) as [|e es] eqn:E; [discriminate|].
    cbn [maxExpression]. rewrite IH by exact H.
    unfold strokeRect, draw. simpl. rewrite <- !app_assoc. reflexivity.
Qed.

(** X14. When a local detection returns and every face has an expression,
    the canvas holds, for each face in order, its box and its strongest
    expression 5 pixels above (the previous overlay is cleared first); the
    stored faces are the detected ones and the counter shows how many. *)
Theorem local_detection_overlay (s : State) (i : nat) (ds : list Detection) :
  pending (env s) !! i = Some ReqLocalDetect ->
  all_drawable ds = true ->
  canvas (dom (settle i (Detections ds) s)) = flat_map detection_draws ds /\
  currentFaces (this (settle i (Detections ds) s)) = map LocalFace ds /\
  txt_face_count (texts (dom (settle i (Detections ds) s))) = pretty (length ds).
Proof.
  intros H Hd. unfold settle. rewrite H. unfold detectFacesWithFaceAPI_resume.
  rewrite drawDetections_canvas by exact Hd. repeat split.
Qed.

Lemma local_detection_overlay_witness :
  pending (env local_sample_page) !! 0 = Some ReqLocalDetect /\
  all_drawable [a_detection] = true /\
  canvas (dom (settle 0 (Detections [a_detection]) local_sample_page))
  = [StrokeRect 10 20 30 40; FillText "sad" 10 15].
Proof.
  split; [reflexivity|]. split; [reflexivity|].
  exact (proj1 (local_detection_overlay local_sample_page 0 [a_detection] eq_refl eq_refl)).
Defined.

(** X16. Stopping the detection or the camera does not clear the stored
    faces: after a release and a new acquisition, with no new sample,
    [recognizeAttendance] passes its face check on the old faces and sends
    a request. *)
Theorem release_keeps_the_faces (s : State) (sid : StreamId) :
  mediaDevices (env s) = true ->
  currentFaces (this s) <> [] ->
  currentFaces (this (stopDetection s)) = currentFaces (this s) /\
  currentFaces (this (stopCamera s)) = currentFaces (this s) /\
  currentFaces (this (perform (stopCamera s) (acquire sid))) = currentFaces (this s) /\
  in_flight is_recognize (recognizeAttendance (perform (stopCamera s) (acquire sid)))
  = S (in_flight is_recognize s).
Proof.
  intros Hm Hf. rewrite !in_flight_count. destruct_state s. simpl in Hm, Hf. subst md.
  destruct cf as [|c cf]; [done|clear Hf].
  split; [destruct di; reflexivity|]. split; [destruct st, di; reflexivity|].
  unfold perform, startCamera, stopCamera.
  destruct st, di; cbn -[lookup delete count]; settle_issued;
    (split; [reflexivity|]); unfold count; rewrite filter_app, length_app; simpl; lia.
Qed.

Lemma release_keeps_the_faces_witness :
  mediaDevices (env face_page) = true /\
  currentFaces (this face_page) <> [] /\
  in_flight is_recognize (recognizeAttendance (perform (stopCamera face_page) (acquire 2)))
  = S (in_flight is_recognize face_page).
Proof.
  assert (B : currentFaces (this face_page) <> []) by (vm_compute; discriminate).
  split; [reflexivity|]. split; [exact B|].
  exact (proj2 (proj2 (proj2 (release_keeps_the_faces face_page 2 eq_refl B)))).
Defined.

(** X17. Only a successful recognition writes the result panel.  A
    rejected request, or a response whose [success] is false, leaves the
    panel as it was (an earlier success stays on display) and plays the
    error sound; a successful one shows its result and plays the success
    sound. *)
Theorem failed_recognition_keeps_result
    (s : State) (i : nat) (image originalText : string) (r : Reply) :
  pending (env s) !! i = Some (ReqRecognize image originalText) ->
  (recognition_failed r = true ->
   recognition_result (dom (settle i r s)) = recognition_result (dom s) /\
   sounds (env (settle i r s)) = sounds (env s) ++ ["/static/sounds/error.mp3"]) /\
  (forall result, r = HttpRecognize result -> res_success result = true ->
   recognition_result (dom (settle i r s)) = Some result /\
   sounds (env (settle i r s)) = sounds (env s) ++ ["/static/sounds/success.mp3"]).
Proof.
  intros H. unfold settle. rewrite H. split.
  - destruct r; try discriminate; simpl.
    + intros Hr. unfold recognizeAttendance_then.
      destruct (res_success r); [discriminate|]. repeat split.
    + intros _. repeat split.
  - intros result -> Hr. unfold recognizeAttendance_then. rewrite Hr. repeat split.
Qed.

Lemma failed_recognition_keeps_result_witness :
  pending (env recognizing_page) !! 0
  = Some (ReqRecognize "data:image/jpeg;base64,AA" "识别考勤") /\
  recognition_result (dom (settle 0 (HttpError (Some "未识别到员工")) recognizing_page))
  = recognition_result (dom recognizing_page).
Proof.
  split; [reflexivity|].
  exact (proj1 (proj1 (failed_recognition_keeps_result recognizing_page 0
                         "data:image/jpeg;base64,AA" "识别考勤"
                         (HttpError (Some "未识别到员工")) eq_refl) eq_refl)).
Defined.

(** X18. When the platform has [getUserMedia] and the request is denied,
    the controller and the page are exactly as before the click: no stream
    is held or left live, nothing is pending; the denial is logged and
    shown as one danger toast. *)
Theorem denied_acquisition_changes_nothing (s : State) :
  mediaDevices (env s) = true ->
  this (startCamera_and_settle CameraDenied s) = this s /\
  dom (startCamera_and_settle CameraDenied s) = dom s /\
  pending (env (startCamera_and_settle CameraDenied s)) = pending (env s) /\
  liveStreams (env (startCamera_and_settle CameraDenied s)) = liveStreams (env s) /\
  toasts (env (startCamera_and_settle CameraDenied s))
  = toasts (env s) ++ [("无法访问摄像头，请检查权限设置", "danger")] /\
  console (env (startCamera_and_settle CameraDenied s)) = console (env s) ++ ["无法访问摄像头:"].
Proof.
  intros Hm. unfold startCamera_and_settle, startCamera. rewrite Hm.
  destruct_state s. settle_issued. repeat split.
Qed.

Lemma denied_acquisition_changes_nothing_witness :
  mediaDevices (env loaded_page) = true /\
  this (startCamera_and_settle CameraDenied loaded_page) = this loaded_page.
Proof.
  split; [reflexivity|].
  exact (proj1 (denied_acquisition_changes_nothing loaded_page eq_refl)).
Defined.

(** ** [formatDateTime] *)

Lemma string_length_2 (s : string) :
  String.length s = 2 -> exists a b, s = String a (String b "").
Proof. destruct s as [|a [|b [|c s]]]; try discriminate. eauto. Qed.

Lemma string_length_4 (s : string) :
  String.length s = 4 ->
  exists a b c d, s = String a (String b (String c (String d ""))).
Proof. destruct s as [|a [|b [|c [|d [|e s]]]]]; try discriminate. eauto 6. Qed.

(** X19. [formatDateTime] returns the empty string for an empty date
    string and "NaN-NaN-NaN NaN:NaN" for one that is not a date.  For a
    date of the years 1000 to 9999 the result has exactly 16 characters,
    "YYYY-MM-DD HH:MM": the separators are at positions 4, 7, 10 and 13. *)
Theorem formatDateTime_shape (newDate : string -> option DateFields) (dateString : string) :
  (dateString = "" -> formatDateTime newDate dateString = "") /\
  (dateString <> "" -> newDate dateString = None ->
   formatDateTime newDate dateString = "NaN-NaN-NaN NaN:NaN") /\
  (forall d, dateString <> "" -> newDate dateString = Some d -> four_digit_year d ->
   String.length (formatDateTime newDate dateString) = 16 /\
   String.substring 4 1 (formatDateTime newDate dateString) = "-" /\
   String.substring 7 1 (formatDateTime newDate dateString) = "-" /\
   String.substring 10 1 (formatDateTime newDate dateString) = " " /\
   String.substring 13 1 (formatDateTime newDate dateString) = ":").
Proof.
  unfold formatDateTime. split; [intros ->; reflexivity|].
  destruct dateString as [|c ds]; [split; [done|intros d H; done]|]. simpl. split.
  - intros _ ->. reflexivity.
  - intros d _ -> (Hy & Hm & Hd & Hh & Hn).
    destruct (string_length_4 _ (year_length _ Hy)) as (y1 & y2 & y3 & y4 & ->).
    fold (two_digits (getMonth d + 1)). fold (two_digits (getDate d)).
    fold (two_digits (getHours d)). fold (two_digits (getMinutes d)).
    destruct (string_length_2 _ (two_digits_length (getMonth d + 1) ltac:(lia)))
      as (m1 & m2 & ->).
    destruct (string_length_2 _ (two_digits_length _ Hd)) as (d1 & d2 & ->).
    destruct (string_length_2 _ (two_digits_length _ Hh)) as (h1 & h2 & ->).
    destruct (string_length_2 _ (two_digits_length _ Hn)) as (n1 & n2 & ->).
    repeat split.
Qed.

Lemma formatDateTime_shape_witness :
  formatDateTime (fun _ => Some {| getFullYear := 2024; getMonth := 0; getDate := 5;
                                   getHours := 9; getMinutes := 7 |}) "2024-01-05T09:07:00"
  = "2024-01-05 09:07" /\
  String.length
    (formatDateTime (fun _ => Some {| getFullYear := 2024; getMonth := 0; getDate := 5;
                                      getHours := 9; getMinutes := 7 |})
       "2024-01-05T09:07:00") = 16.
Proof.
  split; [reflexivity|].
  refine (proj1 (proj2 (proj2 (formatDateTime_shape _ "2024-01-05T09:07:00")) _ _ eq_refl _)).
  - discriminate.
  - repeat split; simpl; lia.
Defined.

(** X20. On dates of the years 1000 to 9999 [formatDateTime] loses nothing
    but the seconds: two dates that are rendered alike have the same year,
    month, day, hour and minute. *)
Theorem formatDateTime_determines_the_minute
    (newDate : string -> option DateFields) (s1 s2 : string) (d1 d2 : DateFields) :
  s1 <> "" -> s2 <> "" ->
  newDate s1 = Some d1 -> newDate s2 = Some d2 ->
  four_digit_year d1 -> four_digit_year d2 ->
  formatDateTime newDate s1 = formatDateTime newDate s2 ->
  d1 = d2.
Proof.
  intros N1 N2 E1 E2 (Hy1 & Hm1 & Hd1 & Hh1 & Hn1) (Hy2 & Hm2 & Hd2 & Hh2 & Hn2).
  unfold formatDateTime. rewrite E1, E2.
  destruct s1; [done|]. destruct s2; [done|]. simpl.
  fold (two_digits (getMonth d1 + 1)). fold (two_digits (getDate d1)).
  fold (two_digits (getHours d1)). fold (two_digits (getMinutes d1)).
  fold (two_digits (getMonth d2 + 1)). fold (two_digits (getDate d2)).
  fold (two_digits (getHours d2)). fold (two_digits (getMinutes d2)).
  intros H.
  apply string_app_inv in H as [Hy H]; [|by rewrite !year_length].
  apply (string_app_inv "-" "-") in H as [_ H]; [|done].
  apply string_app_inv in H as [Hm H]; [|rewrite !two_digits_length; lia].
  apply (string_app_inv "-" "-") in H as [_ H]; [|done].
  apply string_app_inv in H as [Hd H]; [|rewrite !two_digits_length; lia].
  apply (string_app_inv " " " ") in H as [_ H]; [|done].
  apply string_app_inv in H as [Hh H]; [|rewrite !two_digits_length; lia].
  apply (string_app_inv ":" ":") in H as [_ Hn].
  2: done.
  apply (inj pretty) in Hy.
  apply two_digits_inj in Hm, Hd, Hh, Hn; try lia.
  destruct d1, d2; simpl in *. f_equal; lia.
Qed.

Lemma formatDateTime_determines_the_minute_witness :
  {| getFullYear := 2024; getMonth := 0; getDate := 5; getHours := 9; getMinutes := 7 |}
  = {| getFullYear := 2024; getMonth := 0; getDate := 5; getHours := 9; getMinutes := 7 |}.
Proof.
  refine (formatDateTime_determines_the_minute
            (fun _ => Some {| getFullYear := 2024; getMonth := 0; getDate := 5;
                              getHours := 9; getMinutes := 7 |})
            "2024-01-05T09:07:00" "2024-01-05T09:07:30" _ _ _ _ eq_refl eq_refl _ _ eq_refl).
  - discriminate.
  - discriminate.
  - repeat split; simpl; lia.
  - repeat split; simpl; lia.
Defined.
